(** * mySubSynth: a three-oscillator subtractive synthesizer wired from pyo objects

    A shallow embedding of [my_subsynth.py].  The class owns eight stored
    parameters and five signal-processing objects of the audio library
    (one [MidiAdsr], three [LFO], one [MoogLP], one [Pan]); its methods assign
    attributes of [self] and attributes of those objects.

    Conventions of the embedding.
    - A Python value that can be handed to a parameter is a [pyval]: an [int],
      a [float], a reference to an audio object, or the product object that
      [PyoObject.__mul__] builds.
    - Audio objects are referred to by identity ([objref]), so that an object
      mutated through [self] is seen by every object wired to it.
    - A method is a function from the instance to the instance it leaves
      behind; a method that can raise also returns the exception, and the
      instance it returns is the one left when the exception escapes.
    - What the library decides and the source does not show (which [int] it
      takes as a waveform type) is a parameter ([pyo]) of the methods that
      depend on it.
    - Numbers that the library would hold as machine floats are exact
      rationals ([Q]); the rounding of the library's sample type is outside
      the Python source and is not modelled. *)

From Stdlib Require Import ZArith QArith Qminmax Lqa List String Bool Lia.
Import ListNotations.

Local Open Scope Q_scope.
Local Open Scope string_scope.

(** ** Python values and audio objects *)

(** Identity of the audio objects that can appear in the synthesizer's graph. *)
Inductive objref : Type :=
| PITCH                 (* notes["pitch"] *)
| VELOCITY              (* notes["velocity"] *)
| FREQS                 (* freqs = MToF(notes["pitch"]) *)
| ENV                   (* self._env *)
| OSC1                  (* self._osc1 *)
| OSC2                  (* self._osc2 *)
| OSC3                  (* self._osc3 *)
| FILT                  (* self._filt *)
| STEREO                (* self._stereo *)
| EXT (k : nat).        (* a PyoObject created by the caller *)

Inductive pyval : Type :=
| PyInt (z : Z)
| PyFloat (q : Q)
| PyObj (o : objref)
| PyMul (a b : pyval).  (* a * b where a is a PyoObject: a new product object *)

Definition objref_eqb (a b : objref) : bool :=
  match a, b with
  | PITCH, PITCH | VELOCITY, VELOCITY | FREQS, FREQS | ENV, ENV
  | OSC1, OSC1 | OSC2, OSC2 | OSC3, OSC3 | FILT, FILT | STEREO, STEREO => true
  | EXT j, EXT k => Nat.eqb j k
  | _, _ => false
  end.

(** The exceptions the library raises for a waveform type it does not take. *)
Inductive exn : Type :=
| PyoArgumentTypeError
| OverflowError.

(** An oscillator's [type] must be an [int].  Anything else is refused with
    [PyoArgumentTypeError] before the oscillator is touched.  What happens to
    an [int] is the library's own matter (its conversion to a C integer): it
    is taken, or taken by the Python object and then refused by the C layer,
    or refused outright. *)
Inductive verdict : Type :=
| Taken                        (* the attribute becomes the int; the call returns *)
| TakenThenRaises (e : exn)    (* the attribute becomes the int; the call raises *)
| Refused (e : exn).           (* the call raises; the attribute is as before *)

Record pyo : Type := mkPyo {
  new_int_type : Z -> option exn;   (* LFO(type=z): the exception, if any *)
  set_int_type : Z -> verdict       (* osc.type = z *)
}.

(** What an object was last asked to do by [play], [out] or [stop];
    [AsCreated] until then (the library starts an object when it builds it).
    [dur] and [delay] are in seconds, as passed.  Whether the object is
    sounding at a given moment follows from the request and the audio
    server's clock, which is not part of the instance. *)
Inductive transport_state : Type :=
| AsCreated
| PlayCalled (dur delay : Q)
| OutCalled (chnl inc : Z) (dur delay : Q)
| StopCalled.

(** The library classes, reduced to the attributes the source passes or
    assigns.  [mul] and [add] are the post-processing attributes every
    PyoObject has (output = raw * mul + add; where the source does not pass
    them they are 1 and 0); [playing] is the last request of [play], [out]
    or [stop]. *)

Module MidiAdsr.
Record t : Type := mk {
  input : pyval;
  attack : Q;
  decay : Q;
  sustain : Q;
  release : Q;
  mul : Q
}.
End MidiAdsr.

Module LFO.
Record t : Type := mk {
  freq : pyval;
  sharp : pyval;
  type : pyval;
  mul : pyval;
  add : pyval;
  playing : transport_state
}.

Definition setType (x : pyval) (o : t) : t :=
  mk (freq o) (sharp o) x (mul o) (add o) (playing o).
Definition setSharp (x : pyval) (o : t) : t :=
  mk (freq o) x (type o) (mul o) (add o) (playing o).
Definition setPlaying (b : transport_state) (o : t) : t :=
  mk (freq o) (sharp o) (type o) (mul o) (add o) b.

(** The check [LFO(..., type=x, ...)] makes: the exception, if any. *)
Definition new_type_check (L : pyo) (x : pyval) : option exn :=
  match x with
  | PyInt z => new_int_type L z
  | _ => Some PyoArgumentTypeError
  end.

(** The assignment [o.type = x]: the oscillator it leaves and the exception
    it raises, if any. *)
Definition assign_type (L : pyo) (x : pyval) (o : t) : t * option exn :=
  match x with
  | PyInt z =>
      match set_int_type L z with
      | Taken => (setType x o, None)
      | TakenThenRaises e => (setType x o, Some e)
      | Refused e => (o, Some e)
      end
  | _ => (o, Some PyoArgumentTypeError)
  end.
End LFO.

Module MoogLP.
Record t : Type := mk {
  input : pyval;
  freq : pyval;
  res : pyval;
  playing : transport_state
}.

Definition setFreq (x : pyval) (o : t) : t := mk (input o) x (res o) (playing o).
Definition setRes (x : pyval) (o : t) : t := mk (input o) (freq o) x (playing o).
Definition setPlaying (b : transport_state) (o : t) : t :=
  mk (input o) (freq o) (res o) b.
End MoogLP.

Module Pan.
Record t : Type := mk {
  input : pyval;
  outs : Z;
  pan : pyval;
  playing : transport_state
}.

Definition setPlaying (b : transport_state) (o : t) : t :=
  mk (input o) (outs o) (pan o) b.
End Pan.

(** [SLMap(min, max, scale, name, init, res, dataOnly)]: one slider of a
    control window. *)
Module SLMap.
Record t : Type := mk {
  min : Z;
  max : Z;
  scale : string;
  name : string;
  init : pyval;
  res : string;
  dataOnly : bool
}.
End SLMap.

(** ** The class *)

Record mySubSynth : Type := mkSynth {
  _type1 : pyval;
  _sharp1 : pyval;
  _type2 : pyval;
  _sharp2 : pyval;
  _type3 : pyval;
  _sharp3 : pyval;
  _cutoffFact : pyval;
  _res : pyval;
  _env : MidiAdsr.t;
  _osc1 : LFO.t;
  _osc2 : LFO.t;
  _osc3 : LFO.t;
  _filt : MoogLP.t;
  _stereo : Pan.t;
  _map_list_osc : option (list SLMap.t);   (* absent until ctrl() runs *)
  _map_list_filt : option (list SLMap.t)
}.

(** Attribute assignment [self.<field> = v], one definition per attribute the
    methods assign. *)
Definition assign_type1 (v : pyval) (s : mySubSynth) : mySubSynth :=
  mkSynth v (_sharp1 s) (_type2 s) (_sharp2 s) (_type3 s) (_sharp3 s)
    (_cutoffFact s) (_res s) (_env s) (_osc1 s) (_osc2 s) (_osc3 s) (_filt s)
    (_stereo s) (_map_list_osc s) (_map_list_filt s).
Definition assign_sharp1 (v : pyval) (s : mySubSynth) : mySubSynth :=
  mkSynth (_type1 s) v (_type2 s) (_sharp2 s) (_type3 s) (_sharp3 s)
    (_cutoffFact s) (_res s) (_env s) (_osc1 s) (_osc2 s) (_osc3 s) (_filt s)
    (_stereo s) (_map_list_osc s) (_map_list_filt s).
Definition assign_type2 (v : pyval) (s : mySubSynth) : mySubSynth :=
  mkSynth (_type1 s) (_sharp1 s) v (_sharp2 s) (_type3 s) (_sharp3 s)
    (_cutoffFact s) (_res s) (_env s) (_osc1 s) (_osc2 s) (_osc3 s) (_filt s)
    (_stereo s) (_map_list_osc s) (_map_list_filt s).
Definition assign_sharp2 (v : pyval) (s : mySubSynth) : mySubSynth :=
  mkSynth (_type1 s) (_sharp1 s) (_type2 s) v (_type3 s) (_sharp3 s)
    (_cutoffFact s) (_res s) (_env s) (_osc1 s) (_osc2 s) (_osc3 s) (_filt s)
    (_stereo s) (_map_list_osc s) (_map_list_filt s).
Definition assign_type3 (v : pyval) (s : mySubSynth) : mySubSynth :=
  mkSynth (_type1 s) (_sharp1 s) (_type2 s) (_sharp2 s) v (_sharp3 s)
    (_cutoffFact s) (_res s) (_env s) (_osc1 s) (_osc2 s) (_osc3 s) (_filt s)
    (_stereo s) (_map_list_osc s) (_map_list_filt s).
Definition assign_sharp3 (v : pyval) (s : mySubSynth) : mySubSynth :=
  mkSynth (_type1 s) (_sharp1 s) (_type2 s) (_sharp2 s) (_type3 s) v
    (_cutoffFact s) (_res s) (_env s) (_osc1 s) (_osc2 s) (_osc3 s) (_filt s)
    (_stereo s) (_map_list_osc s) (_map_list_filt s).
Definition assign_cutoffFact (v : pyval) (s : mySubSynth) : mySubSynth :=
  mkSynth (_type1 s) (_sharp1 s) (_type2 s) (_sharp2 s) (_type3 s) (_sharp3 s)
    v (_res s) (_env s) (_osc1 s) (_osc2 s) (_osc3 s) (_filt s)
    (_stereo s) (_map_list_osc s) (_map_list_filt s).
Definition assign_res (v : pyval) (s : mySubSynth) : mySubSynth :=
  mkSynth (_type1 s) (_sharp1 s) (_type2 s) (_sharp2 s) (_type3 s) (_sharp3 s)
    (_cutoffFact s) v (_env s) (_osc1 s) (_osc2 s) (_osc3 s) (_filt s)
    (_stereo s) (_map_list_osc s) (_map_list_filt s).

(** In-place update of an object held by [self] ([self._osc1.type = x] and
    the like): the object keeps its identity, its attribute changes. *)
Definition update_osc1 (f : LFO.t -> LFO.t) (s : mySubSynth) : mySubSynth :=
  mkSynth (_type1 s) (_sharp1 s) (_type2 s) (_sharp2 s) (_type3 s) (_sharp3 s)
    (_cutoffFact s) (_res s) (_env s) (f (_osc1 s)) (_osc2 s) (_osc3 s) (_filt s)
    (_stereo s) (_map_list_osc s) (_map_list_filt s).
Definition update_osc2 (f : LFO.t -> LFO.t) (s : mySubSynth) : mySubSynth :=
  mkSynth (_type1 s) (_sharp1 s) (_type2 s) (_sharp2 s) (_type3 s) (_sharp3 s)
    (_cutoffFact s) (_res s) (_env s) (_osc1 s) (f (_osc2 s)) (_osc3 s) (_filt s)
    (_stereo s) (_map_list_osc s) (_map_list_filt s).
Definition update_osc3 (f : LFO.t -> LFO.t) (s : mySubSynth) : mySubSynth :=
  mkSynth (_type1 s) (_sharp1 s) (_type2 s) (_sharp2 s) (_type3 s) (_sharp3 s)
    (_cutoffFact s) (_res s) (_env s) (_osc1 s) (_osc2 s) (f (_osc3 s)) (_filt s)
    (_stereo s) (_map_list_osc s) (_map_list_filt s).
Definition update_filt (f : MoogLP.t -> MoogLP.t) (s : mySubSynth) : mySubSynth :=
  mkSynth (_type1 s) (_sharp1 s) (_type2 s) (_sharp2 s) (_type3 s) (_sharp3 s)
    (_cutoffFact s) (_res s) (_env s) (_osc1 s) (_osc2 s) (_osc3 s) (f (_filt s))
    (_stereo s) (_map_list_osc s) (_map_list_filt s).
Definition update_stereo (f : Pan.t -> Pan.t) (s : mySubSynth) : mySubSynth :=
  mkSynth (_type1 s) (_sharp1 s) (_type2 s) (_sharp2 s) (_type3 s) (_sharp3 s)
    (_cutoffFact s) (_res s) (_env s) (_osc1 s) (_osc2 s) (_osc3 s) (_filt s)
    (f (_stereo s)) (_map_list_osc s) (_map_list_filt s).
Definition assign_map_list_osc (l : list SLMap.t) (s : mySubSynth) : mySubSynth :=
  mkSynth (_type1 s) (_sharp1 s) (_type2 s) (_sharp2 s) (_type3 s) (_sharp3 s)
    (_cutoffFact s) (_res s) (_env s) (_osc1 s) (_osc2 s) (_osc3 s) (_filt s)
    (_stereo s) (Some l) (_map_list_filt s).
Definition assign_map_list_filt (l : list SLMap.t) (s : mySubSynth) : mySubSynth :=
  mkSynth (_type1 s) (_sharp1 s) (_type2 s) (_sharp2 s) (_type3 s) (_sharp3 s)
    (_cutoffFact s) (_res s) (_env s) (_osc1 s) (_osc2 s) (_osc3 s) (_filt s)
    (_stereo s) (_map_list_osc s) (Some l).
(** The fixed ceiling frequency of the cutoff, in Hz. *)
Definition ceiling : pyval := PyInt 20000.

(** [self._env*20000*x]: Python multiplies left to right. *)
Definition cutoff_expr (x : pyval) : pyval := PyMul (PyMul (PyObj ENV) ceiling) x.

(** The instance the body of [__init__] builds from its eight arguments when
    every library constructor returns. *)
Definition built (type1 sharp1 type2 sharp2 type3 sharp3 cutoffFact res : pyval)
  : mySubSynth :=
  let env := MidiAdsr.mk (PyObj VELOCITY) 0.05 0.4 0.2 0.5 0.65 in
  (* an LFO's add defaults to 0 *)
  let osc1 := LFO.mk (PyObj FREQS) sharp1 type1 (PyObj ENV) (PyInt 0) AsCreated in
  let osc2 := LFO.mk (PyObj FREQS) sharp2 type2 (PyObj ENV) (PyObj OSC1) AsCreated in
  let osc3 := LFO.mk (PyObj FREQS) sharp3 type3 (PyObj ENV) (PyObj OSC2) AsCreated in
  let filt := MoogLP.mk (PyObj OSC3) (cutoff_expr cutoffFact) res AsCreated in
  let stereo := Pan.mk (PyObj FILT) 2 (PyFloat 0.5) AsCreated in
  mkSynth type1 sharp1 type2 sharp2 type3 sharp3 cutoffFact res
    env osc1 osc2 osc3 filt stereo None None.

(** [__init__(self, type1=0, sharp1=1, type2=0, sharp2=1, type3=0, sharp3=1,
    cutoffFact=0.5, res=0.5)] with every argument given.  The three
    oscillators are created in turn; the first one whose constructor refuses
    its [type] raises, and no instance results. *)
Definition __init__ (L : pyo)
    (type1 sharp1 type2 sharp2 type3 sharp3 cutoffFact res : pyval)
  : mySubSynth + exn :=
  match LFO.new_type_check L type1 with
  | Some e => inr e
  | None =>
      match LFO.new_type_check L type2 with
      | Some e => inr e
      | None =>
          match LFO.new_type_check L type3 with
          | Some e => inr e
          | None =>
              inl (built type1 sharp1 type2 sharp2 type3 sharp3 cutoffFact res)
          end
      end
  end.

(** Keyword arguments left out take the defaults of the signature. *)
Record kwargs : Type := mkKwargs {
  kw_type1 : option pyval;
  kw_sharp1 : option pyval;
  kw_type2 : option pyval;
  kw_sharp2 : option pyval;
  kw_type3 : option pyval;
  kw_sharp3 : option pyval;
  kw_cutoffFact : option pyval;
  kw_res : option pyval
}.

Definition no_args : kwargs := mkKwargs None None None None None None None None.

Definition default (d : pyval) (o : option pyval) : pyval :=
  match o with Some v => v | None => d end.

(** The constructor called with the keyword arguments [k]: it returns the
    instance or raises. *)
Definition construct (L : pyo) (k : kwargs) : mySubSynth + exn :=
  __init__ L (default (PyInt 0) (kw_type1 k)) (default (PyInt 1) (kw_sharp1 k))
             (default (PyInt 0) (kw_type2 k)) (default (PyInt 1) (kw_sharp2 k))
             (default (PyInt 0) (kw_type3 k)) (default (PyInt 1) (kw_sharp3 k))
             (default (PyFloat 0.5) (kw_cutoffFact k))
             (default (PyFloat 0.5) (kw_res k)).

(** The instance that call returns whenever it returns (see
    [construct_returns_new]). *)
Definition new (k : kwargs) : mySubSynth :=
  built (default (PyInt 0) (kw_type1 k)) (default (PyInt 1) (kw_sharp1 k))
        (default (PyInt 0) (kw_type2 k)) (default (PyInt 1) (kw_sharp2 k))
        (default (PyInt 0) (kw_type3 k)) (default (PyInt 1) (kw_sharp3 k))
        (default (PyFloat 0.5) (kw_cutoffFact k))
        (default (PyFloat 0.5) (kw_res k)).

(** ** Setters

    Each setter stores its argument and then assigns it to the object's
    attribute.  For a waveform type the second assignment can raise; the
    stored attribute has been written by then and stays. *)

Definition setType1 (L : pyo) (self : mySubSynth) (x : pyval)
  : mySubSynth * option exn :=
  let self := assign_type1 x self in
  let (osc, raised) := LFO.assign_type L x (_osc1 self) in
  (update_osc1 (fun _ => osc) self, raised).

Definition setSharp1 (self : mySubSynth) (x : pyval) : mySubSynth :=
  let self := assign_sharp1 x self in
  update_osc1 (LFO.setSharp x) self.

Definition setType2 (L : pyo) (self : mySubSynth) (x : pyval)
  : mySubSynth * option exn :=
  let self := assign_type2 x self in
  let (osc, raised) := LFO.assign_type L x (_osc2 self) in
  (update_osc2 (fun _ => osc) self, raised).

Definition setSharp2 (self : mySubSynth) (x : pyval) : mySubSynth :=
  let self := assign_sharp2 x self in
  update_osc2 (LFO.setSharp x) self.

Definition setType3 (L : pyo) (self : mySubSynth) (x : pyval)
  : mySubSynth * option exn :=
  let self := assign_type3 x self in
  let (osc, raised) := LFO.assign_type L x (_osc3 self) in
  (update_osc3 (fun _ => osc) self, raised).

Definition setSharp3 (self : mySubSynth) (x : pyval) : mySubSynth :=
  let self := assign_sharp3 x self in
  update_osc3 (LFO.setSharp x) self.

Definition setCutoffFact (self : mySubSynth) (x : pyval) : mySubSynth :=
  let self := assign_cutoffFact x self in
  update_filt (MoogLP.setFreq (cutoff_expr x)) self.

Definition setRes (self : mySubSynth) (x : pyval) : mySubSynth :=
  let self := assign_res x self in
  update_filt (MoogLP.setRes x) self.

(** ** Properties: each getter returns the stored attribute, each property
    setter calls the method. *)

Definition type1 (self : mySubSynth) : pyval := _type1 self.
Definition type1_setter (L : pyo) (self : mySubSynth) (x : pyval) := setType1 L self x.
Definition sharp1 (self : mySubSynth) : pyval := _sharp1 self.
Definition sharp1_setter (self : mySubSynth) (x : pyval) := setSharp1 self x.
Definition type2 (self : mySubSynth) : pyval := _type2 self.
Definition type2_setter (L : pyo) (self : mySubSynth) (x : pyval) := setType2 L self x.
Definition sharp2 (self : mySubSynth) : pyval := _sharp2 self.
Definition sharp2_setter (self : mySubSynth) (x : pyval) := setSharp2 self x.
Definition type3 (self : mySubSynth) : pyval := _type3 self.
Definition type3_setter (L : pyo) (self : mySubSynth) (x : pyval) := setType3 L self x.
Definition sharp3 (self : mySubSynth) : pyval := _sharp3 self.
Definition sharp3_setter (self : mySubSynth) (x : pyval) := setSharp3 self x.
Definition cutoffFact (self : mySubSynth) : pyval := _cutoffFact self.
Definition cutoffFact_setter (self : mySubSynth) (x : pyval) := setCutoffFact self x.
Definition res (self : mySubSynth) : pyval := _res self.
Definition res_setter (self : mySubSynth) (x : pyval) := setRes self x.

(** ** Control windows *)

(** What [ctrl] asks of the GUI: [super().ctrl(map_list, title, wxnoserver)]
    opens one window of sliders, [self._env.ctrl()] opens the envelope's own
    window. *)
Inductive gui : Type :=
| PyoObject_ctrl (map_list : list SLMap.t) (title : option string) (wxnoserver : bool)
| MidiAdsr_ctrl.

(** [ctrl(self, map_list=None, title=None, wxnoserver=False)]; the
    [map_list] argument is never read. *)
Definition ctrl (self : mySubSynth) (map_list : option (list SLMap.t))
    (title : option string) (wxnoserver : bool) : mySubSynth * list gui :=
  let osc :=
    [ SLMap.mk 0 7 "lin" "type1" (_type1 self) "int" true;
      SLMap.mk 0 1 "lin" "sharp1" (_sharp1 self) "float" false;
      SLMap.mk 0 7 "lin" "type2" (_type2 self) "int" true;
      SLMap.mk 0 1 "lin" "sharp2" (_sharp2 self) "float" false;
      SLMap.mk 0 7 "lin" "type3" (_type3 self) "int" true;
      SLMap.mk 0 1 "lin" "sharp3" (_sharp3 self) "float" false ] in
  let self := assign_map_list_osc osc self in
  let filt :=
    [ SLMap.mk 0 1 "lin" "cutoffFact" (_cutoffFact self) "float" false;
      SLMap.mk 0 1 "lin" "res" (_res self) "float" false ] in
  let self := assign_map_list_filt filt self in
  (self, [ PyoObject_ctrl osc title wxnoserver;
           PyoObject_ctrl filt title wxnoserver;
           MidiAdsr_ctrl ]).

(** Every slider [ctrl] declares, in the order the windows are opened. *)
Fixpoint sliders (evs : list gui) : list SLMap.t :=
  match evs with
  | [] => []
  | PyoObject_ctrl l _ _ :: rest => l ++ sliders rest
  | MidiAdsr_ctrl :: rest => sliders rest
  end.

(** What a slider declares about its parameter: name, range, scale, type. *)
Definition declaration (m : SLMap.t) : string * (Z * Z) * string * string :=
  (SLMap.name m, (SLMap.min m, SLMap.max m), SLMap.scale m, SLMap.res m).

(** ** Transport: play, stop, out *)

(** The five calls [play] and [out] both make, and [stop]'s five, in the
    order of the source. *)
Definition set_playing (b : transport_state) (self : mySubSynth) : mySubSynth :=
  let self := update_osc1 (LFO.setPlaying b) self in
  let self := update_osc2 (LFO.setPlaying b) self in
  let self := update_osc3 (LFO.setPlaying b) self in
  let self := update_filt (MoogLP.setPlaying b) self in
  update_stereo (Pan.setPlaying b) self.

(** Each of the three methods addresses the five objects in turn, handing on
    its [dur] and [delay], and then the base class, whose objects are those of
    [self._stereo]. *)
Definition play (self : mySubSynth) (dur delay : Q) : mySubSynth :=
  let self := set_playing (PlayCalled dur delay) self in
  update_stereo (Pan.setPlaying (PlayCalled dur delay)) self.

Definition stop (self : mySubSynth) : mySubSynth :=
  let self := set_playing StopCalled self in
  update_stereo (Pan.setPlaying StopCalled) self.

Definition out (self : mySubSynth) (chnl inc : Z) (dur delay : Q) : mySubSynth :=
  let self := set_playing (PlayCalled dur delay) self in
  update_stereo (Pan.setPlaying (OutCalled chnl inc dur delay)) self.

(** ** Parameters by name *)

Inductive param : Type :=
| Ptype1 | Psharp1 | Ptype2 | Psharp2 | Ptype3 | Psharp3 | PcutoffFact | Pres.

Definition all_params : list param :=
  [Ptype1; Psharp1; Ptype2; Psharp2; Ptype3; Psharp3; PcutoffFact; Pres].

Definition param_name (p : param) : string :=
  match p with
  | Ptype1 => "type1" | Psharp1 => "sharp1"
  | Ptype2 => "type2" | Psharp2 => "sharp2"
  | Ptype3 => "type3" | Psharp3 => "sharp3"
  | PcutoffFact => "cutoffFact" | Pres => "res"
  end.

(** [getattr(self, name)] through the property. *)
Definition getattr (self : mySubSynth) (p : param) : pyval :=
  match p with
  | Ptype1 => type1 self | Psharp1 => sharp1 self
  | Ptype2 => type2 self | Psharp2 => sharp2 self
  | Ptype3 => type3 self | Psharp3 => sharp3 self
  | PcutoffFact => cutoffFact self | Pres => res self
  end.

(** [setattr(self, name, x)] through the property: the instance left
    behind and the exception raised, if any. *)
Definition setattr_call (L : pyo) (self : mySubSynth) (p : param) (x : pyval)
  : mySubSynth * option exn :=
  match p with
  | Ptype1 => type1_setter L self x | Psharp1 => (sharp1_setter self x, None)
  | Ptype2 => type2_setter L self x | Psharp2 => (sharp2_setter self x, None)
  | Ptype3 => type3_setter L self x | Psharp3 => (sharp3_setter self x, None)
  | PcutoffFact => (cutoffFact_setter self x, None)
  | Pres => (res_setter self x, None)
  end.

(** The [setXxx] method of a parameter, likewise. *)
Definition method (L : pyo) (p : param) (self : mySubSynth) (x : pyval)
  : mySubSynth * option exn :=
  match p with
  | Ptype1 => setType1 L self x | Psharp1 => (setSharp1 self x, None)
  | Ptype2 => setType2 L self x | Psharp2 => (setSharp2 self x, None)
  | Ptype3 => setType3 L self x | Psharp3 => (setSharp3 self x, None)
  | PcutoffFact => (setCutoffFact self x, None)
  | Pres => (setRes self x, None)
  end.

(** The instance a call leaves, whether it returned or raised, and the
    exception it raised. *)
Definition setattr (L : pyo) (self : mySubSynth) (p : param) (x : pyval)
  : mySubSynth := fst (setattr_call L self p x).

Definition setter (L : pyo) (p : param) (self : mySubSynth) (x : pyval)
  : mySubSynth := fst (method L p self x).

Definition raised (L : pyo) (p : param) (self : mySubSynth) (x : pyval)
  : option exn := snd (method L p self x).

Definition is_type (p : param) : bool :=
  match p with
  | Ptype1 | Ptype2 | Ptype3 => true
  | _ => false
  end.

(** Whether an assignment of [x] reaches the attribute of the object that
    [p] drives: always for the five signal parameters, and for a waveform
    type when [x] is an [int] the library does not refuse outright. *)
Definition takes (L : pyo) (p : param) (x : pyval) : bool :=
  if is_type p then
    match x with
    | PyInt z =>
        match set_int_type L z with
        | Refused _ => false
        | _ => true
        end
    | _ => false
    end
  else true.

(** The attribute of the signal-processing object that a parameter drives. *)
Definition dsp_attr (self : mySubSynth) (p : param) : pyval :=
  match p with
  | Ptype1 => LFO.type (_osc1 self) | Psharp1 => LFO.sharp (_osc1 self)
  | Ptype2 => LFO.type (_osc2 self) | Psharp2 => LFO.sharp (_osc2 self)
  | Ptype3 => LFO.type (_osc3 self) | Psharp3 => LFO.sharp (_osc3 self)
  | PcutoffFact => MoogLP.freq (_filt self) | Pres => MoogLP.res (_filt self)
  end.

(** What the setter of [p] hands to that attribute when called with [x]. *)
Definition dsp_value (p : param) (x : pyval) : pyval :=
  match p with
  | PcutoffFact => cutoff_expr x
  | _ => x
  end.

(** The range the control window declares for a parameter. *)
Definition declared_range (p : param) : Z * Z :=
  match p with
  | Ptype1 | Ptype2 | Ptype3 => (0, 7)%Z
  | _ => (0, 1)%Z
  end.

Definition in_range (r : Z * Z) (v : pyval) : Prop :=
  match v with
  | PyInt z => (fst r <= z <= snd r)%Z
  | PyFloat q => inject_Z (fst r) <= q /\ q <= inject_Z (snd r)
  | _ => True
  end.

(** ** Method calls and the instances they reach *)

Inductive call : Type :=
| Method (p : param) (x : pyval)       (* sy.setXxx(x) *)
| Assign (p : param) (x : pyval)       (* sy.xxx = x *)
| Ctrl (map_list : option (list SLMap.t)) (title : option string) (wxnoserver : bool)
| Play (dur delay : Q)
| Stop
| Out (chnl inc : Z) (dur delay : Q).

(** The instance a call leaves; a caller that catches the exception of a
    refused waveform type goes on with that instance. *)
Definition step (L : pyo) (self : mySubSynth) (c : call) : mySubSynth :=
  match c with
  | Method p x => setter L p self x
  | Assign p x => setattr L self p x
  | Ctrl m t w => fst (ctrl self m t w)
  | Play dur delay => play self dur delay
  | Stop => stop self
  | Out chnl inc dur delay => out self chnl inc dur delay
  end.

Definition run (L : pyo) (self : mySubSynth) (cs : list call) : mySubSynth :=
  fold_left (step L) cs self.


(** ** Rendering: the value of every signal at a sample *)

Definition signal : Type := nat -> Q.

(** What a render takes from outside the class: the streams of the note
    source and of the envelope object, the objects the caller made, and the
    raw waveform the library's oscillator produces from its frequency,
    sharpness and type.  [src_last o] is what an object wired to [o] reads
    when [o] has not been computed yet in the current pass. *)
Record sources : Type := mkSources {
  src_pitch : signal;
  src_velocity : signal;
  src_freqs : signal;
  src_env : signal;
  src_ext : nat -> signal;
  src_last : objref -> signal;
  src_wave : objref -> signal -> signal -> pyval -> signal
}.

Fixpoint eval (rho : objref -> signal) (v : pyval) (n : nat) : Q :=
  match v with
  | PyInt z => inject_Z z
  | PyFloat q => q
  | PyObj o => rho o n
  | PyMul a b => eval rho a n * eval rho b n
  end.

Definition inputs (R : sources) (o : objref) : signal :=
  match o with
  | PITCH => src_pitch R
  | VELOCITY => src_velocity R
  | FREQS => src_freqs R
  | ENV => src_env R
  | EXT k => src_ext R k
  | _ => src_last R o
  end.

Definition bind (o : objref) (x : signal) (rho : objref -> signal) : objref -> signal :=
  fun o' => if objref_eqb o o' then x else rho o'.

(** The raw waveform of an oscillator, before [mul] and [add]. *)
Definition LFO_wave (R : sources) (id : objref) (rho : objref -> signal) (o : LFO.t) : signal :=
  src_wave R id (eval rho (LFO.freq o)) (eval rho (LFO.sharp o)) (LFO.type o).

Definition LFO_out (R : sources) (id : objref) (rho : objref -> signal) (o : LFO.t) : signal :=
  fun n => LFO_wave R id rho o n * eval rho (LFO.mul o) n + eval rho (LFO.add o) n.

(** Objects are computed in the order [__init__] creates them. *)
Definition graph1 (R : sources) (s : mySubSynth) : objref -> signal :=
  bind OSC1 (LFO_out R OSC1 (inputs R) (_osc1 s)) (inputs R).
Definition graph2 (R : sources) (s : mySubSynth) : objref -> signal :=
  bind OSC2 (LFO_out R OSC2 (graph1 R s) (_osc2 s)) (graph1 R s).
Definition graph3 (R : sources) (s : mySubSynth) : objref -> signal :=
  bind OSC3 (LFO_out R OSC3 (graph2 R s) (_osc3 s)) (graph2 R s).

Definition wave1 (R : sources) (s : mySubSynth) : signal :=
  LFO_wave R OSC1 (inputs R) (_osc1 s).
Definition wave2 (R : sources) (s : mySubSynth) : signal :=
  LFO_wave R OSC2 (graph1 R s) (_osc2 s).
Definition wave3 (R : sources) (s : mySubSynth) : signal :=
  LFO_wave R OSC3 (graph2 R s) (_osc3 s).

Definition filt_input (R : sources) (s : mySubSynth) : signal :=
  eval (graph3 R s) (MoogLP.input (_filt s)).
Definition filt_freq (R : sources) (s : mySubSynth) : signal :=
  eval (graph3 R s) (MoogLP.freq (_filt s)).
Definition filt_res (R : sources) (s : mySubSynth) : signal :=
  eval (graph3 R s) (MoogLP.res (_filt s)).

(** The filter and the panner are the library's; a render is parametric in
    both.  A filter maps the streams of input, cutoff and resonance to its
    output stream; a pan law maps a sample and a pan position to the pair
    (left, right). *)
Definition filter_alg : Type := signal -> signal -> signal -> signal.
Definition pan_law : Type := Q -> Q -> Q * Q.

Definition filt_out (F : filter_alg) (R : sources) (s : mySubSynth) : signal :=
  F (filt_input R s) (filt_freq R s) (filt_res R s).

Definition graph4 (F : filter_alg) (R : sources) (s : mySubSynth) : objref -> signal :=
  bind FILT (filt_out F R s) (graph3 R s).

Definition stereo_out (F : filter_alg) (P : pan_law) (R : sources) (s : mySubSynth)
  : nat -> Q * Q :=
  fun n => P (eval (graph4 F R s) (Pan.input (_stereo s)) n)
             (eval (graph4 F R s) (Pan.pan (_stereo s)) n).

(** The spec's formulation of the signal entering the filter: the bank sum of
    the three oscillators times the envelope level. *)
Definition spec_voice_input (R : sources) (s : mySubSynth) : signal :=
  fun n => (wave1 R s n + wave2 R s n + wave3 R s n) * src_env R n.

(** ** The parts the source leaves to the audio library *)

(** Modelled from the spec: the pan law of the voice, which the source takes
    from the library's [Pan].  The spec fixes the linear law: left =
    sample * (1 - pan), right = sample * pan, with pan in [0,1] and 0.5 the
    centre. *)
Definition pan_linear : pan_law :=
  fun sample pan => (sample * (1 - pan), sample * pan).

(** Modelled from the spec: the envelope generator, which the source takes
    from the library's [MidiAdsr]; only the constructor call is in the source.
    After a note-on at time 0 the level rises to the velocity during the
    attack, falls to sustain * velocity during the decay and stays there; a
    note-off at [t_off] starts the release from the level held at that
    moment, and the level is 0 once the release has elapsed.  Ramps are
    linear; times are in seconds. *)
Definition ramp (from to elapsed dur : Q) : Q :=
  from + (to - from) * (elapsed / dur).

Definition held_level (e : MidiAdsr.t) (velocity t : Q) : Q :=
  let plateau := MidiAdsr.sustain e * velocity in
  if Qle_bool t (MidiAdsr.attack e) then
    ramp 0 velocity t (MidiAdsr.attack e)
  else if Qle_bool t (MidiAdsr.attack e + MidiAdsr.decay e) then
    ramp velocity plateau (t - MidiAdsr.attack e) (MidiAdsr.decay e)
  else plateau.

Definition adsr_level (e : MidiAdsr.t) (velocity t_off t : Q) : Q :=
  if Qle_bool t 0 then 0
  else if Qle_bool t t_off then held_level e velocity t
  else if Qle_bool (t - t_off) (MidiAdsr.release e) then
    ramp (held_level e velocity t_off) 0 (t - t_off) (MidiAdsr.release e)
  else 0.

(** The output of the envelope object: the level times the object's [mul]. *)
Definition MidiAdsr_out (e : MidiAdsr.t) (velocity t_off t : Q) : Q :=
  adsr_level e velocity t_off t * MidiAdsr.mul e.

(** Modelled from the spec: the resonant lowpass filter, which the source
    takes from the library's [MoogLP].  Four one-pole stages in cascade share
    one smoothing coefficient, derived from the cutoff (clamped to
    [0, Nyquist]); the output of the fourth stage, scaled by the resonance
    (clamped to [0,1]), is fed back negatively into the input of the first.
    The spec leaves the mapping [coef] from cutoff to coefficient to the
    implementer, so it is a parameter. *)
Record ladder : Type := mkLadder { y1 : Q; y2 : Q; y3 : Q; y4 : Q }.

Definition at_rest : ladder := mkLadder 0 0 0 0.

Definition clamp (lo hi x : Q) : Q := Qmax lo (Qmin hi x).

Definition one_pole (g x y : Q) : Q := y + g * (x - y).

Definition ladder_step (coef : Q -> Q) (nyquist : Q) (x fc r : Q) (st : ladder) : ladder :=
  let g := coef (clamp 0 nyquist fc) in
  let k := clamp 0 1 r in
  let a := one_pole g (x - k * y4 st) (y1 st) in
  let b := one_pole g a (y2 st) in
  let c := one_pole g b (y3 st) in
  let d := one_pole g c (y4 st) in
  mkLadder a b c d.

(** The filter's memory after the samples 0 .. n-1, starting at rest. *)
Fixpoint ladder_run (coef : Q -> Q) (nyquist : Q) (inp fc r : signal) (n : nat) : ladder :=
  match n with
  | O => at_rest
  | S m => ladder_step coef nyquist (inp m) (fc m) (r m) (ladder_run coef nyquist inp fc r m)
  end.

Definition ladder_filter (coef : Q -> Q) (nyquist : Q) : filter_alg :=
  fun inp fc r n => y4 (ladder_run coef nyquist inp fc r (S n)).

(** A value that is the number zero. *)
Definition is_zero (v : pyval) : Prop :=
  match v with
  | PyInt z => z = 0%Z
  | PyFloat q => q == 0
  | _ => False
  end.

(** ** Statements about the class *)

(** The wiring [__init__] sets up: which object feeds which, the constant
    attributes of the envelope and of the panner, and the agreement between
    the stored sharpness, cutoff factor and resonance and the attributes of
    the objects they drive. *)
Definition wired (s : mySubSynth) : Prop :=
  _env s = MidiAdsr.mk (PyObj VELOCITY) 0.05 0.4 0.2 0.5 0.65
  /\ (LFO.freq (_osc1 s) = PyObj FREQS /\ LFO.mul (_osc1 s) = PyObj ENV
      /\ LFO.add (_osc1 s) = PyInt 0)
  /\ (LFO.freq (_osc2 s) = PyObj FREQS /\ LFO.mul (_osc2 s) = PyObj ENV
      /\ LFO.add (_osc2 s) = PyObj OSC1)
  /\ (LFO.freq (_osc3 s) = PyObj FREQS /\ LFO.mul (_osc3 s) = PyObj ENV
      /\ LFO.add (_osc3 s) = PyObj OSC2)
  /\ MoogLP.input (_filt s) = PyObj OSC3
  /\ (Pan.input (_stereo s) = PyObj FILT /\ Pan.outs (_stereo s) = 2%Z
      /\ Pan.pan (_stereo s) = PyFloat 0.5)
  /\ forall p, is_type p = false -> dsp_attr s p = dsp_value p (getattr s p).

(** A stored waveform type and the oscillator's agree whenever the stored
    value is one that reaches the oscillator. *)
Definition types_follow (L : pyo) (s : mySubSynth) : Prop :=
  forall p, is_type p = true -> takes L p (getattr s p) = true ->
            dsp_attr s p = getattr s p.

(** The claim that a setter clamps its argument into the declared range, as
    the spec words it. *)
Definition setter_clamps (L : pyo) (p : param) (self : mySubSynth) (x : pyval)
  : Prop :=
  in_range (declared_range p) (getattr (setter L p self x) p).


(** The sustain stage of the scenario as the spec words it: with velocity 1
    and the note released at 0.6 s, the envelope's output at 0.45 s is
    0.2 * velocity. *)
Definition sustain_as_claimed (self : mySubSynth) : Prop :=
  MidiAdsr_out (_env self) 1 0.6 0.45 == 0.2 * 1.



(** The eight declarations of the control surface: name, range, scale, type. *)
Definition control_surface : list (string * (Z * Z) * string * string) :=
  [ ("type1", (0, 7)%Z, "lin", "int");
    ("sharp1", (0, 1)%Z, "lin", "float");
    ("type2", (0, 7)%Z, "lin", "int");
    ("sharp2", (0, 1)%Z, "lin", "float");
    ("type3", (0, 7)%Z, "lin", "int");
    ("sharp3", (0, 1)%Z, "lin", "float");
    ("cutoffFact", (0, 1)%Z, "lin", "float");
    ("res", (0, 1)%Z, "lin", "float") ].

(** One library of the shape [pyo] describes, for evaluating statements: it
    converts an [int] to a 32-bit C integer when an oscillator is built and to
    a 64-bit one when its type is assigned, and raises [OverflowError] for an
    [int] that does not fit. *)
Definition fits (bits z : Z) : bool :=
  ((- 2 ^ (bits - 1) <=? z) && (z <? 2 ^ (bits - 1)))%Z.

Definition demo_pyo : pyo :=
  mkPyo (fun z => if fits 32 z then None else Some OverflowError)
        (fun z => if fits 64 z then Taken else TakenThenRaises OverflowError).

(** A concrete render and a concrete session: a held note with a constant
    envelope level, constant oscillators, a rational coefficient mapping that
    is 0 at cutoff 0, and calls that set the cutoff factor to 0, change other
    parameters, open the control windows and restart playback. *)
Definition demo_sources : sources :=
  mkSources (fun _ => 60) (fun _ => 1) (fun _ => 261) (fun _ => 0.65)
            (fun _ _ => 0) (fun _ _ => 0) (fun _ _ _ _ _ => 1).

Definition demo_calls : list call :=
  [ Method PcutoffFact (PyInt 0); Assign Pres (PyFloat 1);
    Method Ptype2 (PyInt 3); Assign Psharp3 (PyFloat 0.25);
    Ctrl None None false; Stop; Out 0 1 0 0 ].

Definition demo_coef (c : Q) : Q := c / (c + 44100).

(** A pan law that treats the two channels alike about the centre: the left
    gain at [pan] is the right gain at [1 - pan].  The linear law and the
    equal-power laws are of this kind. *)
Definition centre_symmetric (P : pan_law) : Prop :=
  forall x pan, fst (P x pan) == snd (P x (1 - pan)).

(** Proof steps for the piecewise envelope: unfold it, then split on every
    comparison of times. *)
Ltac split_time :=
  repeat match goal with
  | |- context [Qle_bool ?a ?b] =>
      let E := fresh "E" in
      destruct (Qle_bool a b) eqn:E;
      [ apply Qle_bool_iff in E
      | apply not_true_iff_false in E; rewrite Qle_bool_iff in E;
        apply Qnot_le_lt in E ]
  end.

Ltac open_envelope :=
  unfold MidiAdsr_out, adsr_level, held_level, ramp, Qdiv;
  cbn [MidiAdsr.attack MidiAdsr.decay MidiAdsr.sustain MidiAdsr.release
       MidiAdsr.mul];
  cbn [Qinv Qnum Qden].

(** ** Sessions: what a list of calls leaves behind *)

Definition param_eqb (p q : param) : bool :=
  String.eqb (param_name p) (param_name q).

(** The value the last call of [cs] that sets [p] gives it, if any call
    does; a method call and a property assignment count alike. *)
Definition assigns (p : param) (c : call) : option pyval :=
  match c with
  | Method q x | Assign q x => if param_eqb p q then Some x else None
  | _ => None
  end.

Fixpoint last_assigned (p : param) (cs : list call) : option pyval :=
  match cs with
  | [] => None
  | c :: rest =>
      match last_assigned p rest with
      | Some x => Some x
      | None => assigns p c
      end
  end.

(** The value of the last call of [cs] whose assignment reaches the object
    that [p] drives. *)
Definition reaches (L : pyo) (p : param) (c : call) : option pyval :=
  match assigns p c with
  | Some x => if takes L p x then Some x else None
  | None => None
  end.

Fixpoint last_taken (L : pyo) (p : param) (cs : list call) : option pyval :=
  match cs with
  | [] => None
  | c :: rest =>
      match last_taken L p rest with
      | Some x => Some x
      | None => reaches L p c
      end
  end.

(** What a call asks of the three oscillators and the filter, and what it
    asks of the panner, when it is [play], [out] or [stop]. *)
Definition transport (c : call) : option (transport_state * transport_state) :=
  match c with
  | Play dur delay => Some (PlayCalled dur delay, PlayCalled dur delay)
  | Out chnl inc dur delay =>
      Some (PlayCalled dur delay, OutCalled chnl inc dur delay)
  | Stop => Some (StopCalled, StopCalled)
  | _ => None
  end.

Fixpoint last_transport (cs : list call)
  : option (transport_state * transport_state) :=
  match cs with
  | [] => None
  | c :: rest =>
      match last_transport rest with
      | Some b => Some b
      | None => transport c
      end
  end.

(** The last request each of the five objects received, in the order
    [play], [stop] and [out] address them. *)
Definition playing_flags (s : mySubSynth) : list transport_state :=
  [ LFO.playing (_osc1 s); LFO.playing (_osc2 s); LFO.playing (_osc3 s);
    MoogLP.playing (_filt s); Pan.playing (_stereo s) ].

(** The sliders kept on the instance by the last [ctrl], oscillator window
    first. *)
Definition stored_sliders (s : mySubSynth) : list SLMap.t :=
  match _map_list_osc s, _map_list_filt s with
  | Some osc, Some filt => osc ++ filt
  | Some osc, None => osc
  | None, Some filt => filt
  | None, None => []
  end.

(** The number a value denotes, when it is an [int] or a [float]. *)
Definition number_value (v : pyval) : option Q :=
  match v with
  | PyInt z => Some (inject_Z z)
  | PyFloat q => Some q
  | _ => None
  end.

(** The calls of the script at the end of the file:
    [sy = mySubSynth().out()] with the defaults of [out], then [sy.ctrl()]. *)
Definition script_calls : list call :=
  [ Out 0 1 0 0; Ctrl None None false ].

(** The two assignments of a setter taken apart: [store] is
    [self._xxx = x], [drive] is the assignment to the object's attribute
    when it goes through. *)
Definition store (p : param) (x : pyval) (s : mySubSynth) : mySubSynth :=
  match p with
  | Ptype1 => assign_type1 x s | Psharp1 => assign_sharp1 x s
  | Ptype2 => assign_type2 x s | Psharp2 => assign_sharp2 x s
  | Ptype3 => assign_type3 x s | Psharp3 => assign_sharp3 x s
  | PcutoffFact => assign_cutoffFact x s | Pres => assign_res x s
  end.

Definition drive (p : param) (x : pyval) (s : mySubSynth) : mySubSynth :=
  match p with
  | Ptype1 => update_osc1 (LFO.setType x) s
  | Psharp1 => update_osc1 (LFO.setSharp x) s
  | Ptype2 => update_osc2 (LFO.setType x) s
  | Psharp2 => update_osc2 (LFO.setSharp x) s
  | Ptype3 => update_osc3 (LFO.setType x) s
  | Psharp3 => update_osc3 (LFO.setSharp x) s
  | PcutoffFact => update_filt (MoogLP.setFreq (cutoff_expr x)) s
  | Pres => update_filt (MoogLP.setRes x) s
  end.

Definition is_int (x : pyval) : bool :=
  match x with
  | PyInt _ => true
  | _ => false
  end.

(** *** Wiring is an invariant of every method *)

Lemma property_setter_is_method (L : pyo) (p : param) (self : mySubSynth)
    (x : pyval) :
  setattr L self p x = setter L p self x.
Proof. destruct p; reflexivity. Qed.

(** A setter stores its argument, and drives the object when the assignment
    goes through. *)
Lemma setter_cases (L : pyo) (p : param) (self : mySubSynth) (x : pyval) :
  setter L p self x
  = if takes L p x then drive p x (store p x self) else store p x self.
Proof.
  destruct p; try reflexivity;
    unfold setter, method, setType1, setType2, setType3, LFO.assign_type, takes;
    cbn [is_type];
    (destruct x as [z| | |]; [destruct (set_int_type L z)| | |]; reflexivity).
Qed.

(** What it raises: nothing for the five signal parameters; for a waveform
    type, the library's exception. *)
Lemma raised_cases (L : pyo) (p : param) (self : mySubSynth) (x : pyval) :
  raised L p self x
  = if is_type p then
      match x with
      | PyInt z =>
          match set_int_type L z with
          | Taken => None
          | TakenThenRaises e | Refused e => Some e
          end
      | _ => Some PyoArgumentTypeError
      end
    else None.
Proof.
  destruct p; try reflexivity;
    unfold raised, method, setType1, setType2, setType3, LFO.assign_type;
    cbn [is_type];
    (destruct x as [z| | |]; [destruct (set_int_type L z)| | |]; reflexivity).
Qed.


Lemma wired_init (a b c d e f g h : pyval) : wired (built a b c d e f g h).
Proof.
  unfold wired; cbn.
  repeat split; try reflexivity.
  intros p _; destruct p; reflexivity.
Qed.

Lemma wired_new (k : kwargs) : wired (new k).
Proof. unfold new; apply wired_init. Qed.

Lemma wired_setter (L : pyo) (p : param) (self : mySubSynth) (x : pyval) :
  wired self -> wired (setter L p self x).
Proof.
  rewrite setter_cases. unfold wired.
  intros (He & H1 & H2 & H3 & Hf & Hs & Hd).
  destruct (takes L p x) eqn:E; destruct p; try discriminate E; cbn;
    (repeat split; try tauto;
     intros q Hq; specialize (Hd q Hq); destruct q;
     try discriminate Hq; try exact Hd; reflexivity).
Qed.

Lemma wired_transport (a b : transport_state) (self : mySubSynth) :
  wired self ->
  wired (update_stereo (Pan.setPlaying b) (set_playing a self)).
Proof.
  unfold wired.
  intros (He & H1 & H2 & H3 & Hf & Hs & Hd).
  cbn. repeat split; try tauto;
    intros q Hq; specialize (Hd q Hq); destruct q; cbn in *; assumption.
Qed.

Lemma wired_ctrl (self : mySubSynth) m t w :
  wired self -> wired (fst (ctrl self m t w)).
Proof.
  unfold wired.
  intros (He & H1 & H2 & H3 & Hf & Hs & Hd).
  cbn. repeat split; try tauto;
    intros q Hq; specialize (Hd q Hq); destruct q; cbn in *; assumption.
Qed.

Lemma wired_step (L : pyo) (self : mySubSynth) (c : call) :
  wired self -> wired (step L self c).
Proof.
  intros H; destruct c as [p x|p x|m t w|dur delay| |chnl inc dur delay];
    unfold step.
  - now apply wired_setter.
  - rewrite property_setter_is_method. now apply wired_setter.
  - now apply wired_ctrl.
  - now apply wired_transport.
  - now apply wired_transport.
  - now apply wired_transport.
Qed.

Lemma wired_run (L : pyo) (cs : list call) (self : mySubSynth) :
  wired self -> wired (run L self cs).
Proof.
  unfold run. revert self.
  induction cs as [|c cs IH]; intros self H; cbn.
  - exact H.
  - apply IH. now apply wired_step.
Qed.

Lemma wired_reachable (L : pyo) (k : kwargs) (cs : list call) :
  wired (run L (new k) cs).
Proof. apply wired_run, wired_new. Qed.

(** *** Accessors *)

(** C1. For each of the eight parameters and every value [x], assigning [x]
    through the property or through the [setXxx] method and then reading the
    property returns [x], also when the oscillator refuses [x] as a waveform
    type (the attribute is stored before the oscillator is asked); rendering
    is a pure reading of the instance, so no render can intervene between
    the two. *)
Theorem accessor_roundtrip (L : pyo) (p : param) (self : mySubSynth) (x : pyval) :
  getattr (setattr L self p x) p = x /\ getattr (setter L p self x) p = x.
Proof.
  rewrite property_setter_is_method, setter_cases.
  destruct (takes L p x); destruct p; split; reflexivity.
Qed.

(** The declared range of a parameter is the range of its slider. *)
Lemma declared_range_is_slider_range (self : mySubSynth)
    (m : option (list SLMap.t)) (t : option string) (w : bool) :
  map (fun sl => (SLMap.name sl, (SLMap.min sl, SLMap.max sl)))
      (sliders (snd (ctrl self m t w)))
  = map (fun p => (param_name p, declared_range p)) all_params.
Proof. reflexivity. Qed.

(** C2, as stated, fails: a fresh synthesizer given [setRes(2.0)] reports
    2.0, outside the declared range [0,1], and a sharpness of -1 is
    likewise kept.  Neither setter consults the library's handling of
    waveform types. *)
Lemma setRes_does_not_clamp :
  ~ setter_clamps demo_pyo Pres (new no_args) (PyFloat 2)
  /\ ~ setter_clamps demo_pyo Psharp1 (new no_args) (PyFloat (-1)).
Proof.
  split; unfold setter_clamps; cbn; intros [H1 H2].
  - apply Qle_bool_iff in H2. discriminate H2.
  - apply Qle_bool_iff in H1. discriminate H1.
Qed.

(** C2, amended. A setter never clamps: for an argument outside the declared
    range the stored attribute is the argument itself, so the getter reports
    a value that is still out of range.  For the sharpness, the cutoff factor
    and the resonance the call returns and the signal-processing object
    receives the argument unmodified (for [cutoffFact], as the last factor of
    env * 20000 * x).  For a waveform type the oscillator receives the
    argument unmodified whenever the call returns; an argument that is not an
    [int] is stored and then refused by the oscillator with
    [PyoArgumentTypeError], and the oscillator's type stays as it was. *)
Theorem setter_keeps_out_of_range (L : pyo) (p : param) (self : mySubSynth)
    (x : pyval) :
  ~ in_range (declared_range p) x ->
  getattr (setter L p self x) p = x
  /\ getattr (setattr L self p x) p = x
  /\ ~ setter_clamps L p self x
  /\ (is_type p = false ->
        raised L p self x = None
        /\ dsp_attr (setter L p self x) p = dsp_value p x)
  /\ (is_type p = true ->
        (raised L p self x = None -> dsp_attr (setter L p self x) p = x)
        /\ (is_int x = false ->
              raised L p self x = Some PyoArgumentTypeError
              /\ dsp_attr (setter L p self x) p = dsp_attr self p)).
Proof.
  intros Hout. unfold setter_clamps.
  rewrite property_setter_is_method, raised_cases, setter_cases.
  assert (Hget : getattr
                   (if takes L p x then drive p x (store p x self)
                    else store p x self) p = x)
    by (destruct (takes L p x); destruct p; reflexivity).
  rewrite Hget.
  split; [reflexivity|]. split; [reflexivity|]. split; [exact Hout|].
  split.
  - intros Hp. unfold takes. rewrite Hp.
    split; [reflexivity|]. destruct p; try discriminate Hp; reflexivity.
  - intros Hp. unfold takes. rewrite Hp. split.
    + destruct x as [z| | |]; try discriminate.
      destruct (set_int_type L z); try discriminate;
        intros _; destruct p; try discriminate Hp; reflexivity.
    + intros Hx. destruct x as [z| | |]; try discriminate Hx;
        (split; [reflexivity|]); destruct p; try discriminate Hp; reflexivity.
Qed.

(** A waveform type of 8.5 is stored, refused by the oscillator, and leaves
    the oscillator's type at the default. *)
Lemma setter_keeps_out_of_range_witness :
  ~ in_range (declared_range Ptype1) (PyFloat 8.5)
  /\ getattr (setter demo_pyo Ptype1 (new no_args) (PyFloat 8.5)) Ptype1
     = PyFloat 8.5
  /\ raised demo_pyo Ptype1 (new no_args) (PyFloat 8.5)
     = Some PyoArgumentTypeError
  /\ dsp_attr (setter demo_pyo Ptype1 (new no_args) (PyFloat 8.5)) Ptype1
     = PyInt 0.
Proof.
  assert (H : ~ in_range (declared_range Ptype1) (PyFloat 8.5)).
  { cbn. intros [_ H]. apply Qle_bool_iff in H. discriminate H. }
  split; [exact H|].
  destruct (setter_keeps_out_of_range demo_pyo Ptype1 (new no_args)
              (PyFloat 8.5) H) as (Hget & _ & _ & _ & Htype).
  destruct (Htype eq_refl) as (_ & Hnonint).
  destruct (Hnonint eq_refl) as (Hraise & Hosc).
  split; [exact Hget|]. split; [exact Hraise|].
  rewrite Hosc. reflexivity.
Defined.

(** *** Defaults and frame *)



(** *** The control surface *)

(** C4. [ctrl] opens two slider windows, six oscillator sliders and two
    filter sliders, and after them the envelope object's own window.  The
    sliders are exactly type1, sharp1, type2, sharp2, type3, sharp3,
    cutoffFact, res, all on a linear scale; the three types are declared
    'int' with range [0,7], the other five 'float' with range [0,1]; each
    starts at the stored value of its parameter. *)
Theorem ctrl_declares_eight_parameters (self : mySubSynth)
    (m : option (list SLMap.t)) (t : option string) (w : bool) :
  map declaration (sliders (snd (ctrl self m t w))) = control_surface
  /\ map SLMap.name (sliders (snd (ctrl self m t w))) = map param_name all_params
  /\ map SLMap.init (sliders (snd (ctrl self m t w))) = map (getattr self) all_params
  /\ (exists osc filt,
        snd (ctrl self m t w)
          = [PyoObject_ctrl osc t w; PyoObject_ctrl filt t w; MidiAdsr_ctrl]
        /\ _map_list_osc (fst (ctrl self m t w)) = Some osc
        /\ _map_list_filt (fst (ctrl self m t w)) = Some filt
        /\ List.length osc = 6%nat /\ List.length filt = 2%nat)
  /\ (forall p, getattr (fst (ctrl self m t w)) p = getattr self p).
Proof.
  split; [reflexivity|]. split; [reflexivity|]. split; [reflexivity|]. split.
  - eexists; eexists. repeat split; reflexivity.
  - intros p; destruct p; reflexivity.
Qed.

(** *** The cutoff of the filter *)


Lemma filt_freq_wired (R : sources) (s : mySubSynth) (n : nat) :
  wired s ->
  filt_freq R s n = src_env R n * 20000 * eval (graph3 R s) (cutoffFact s) n.
Proof.
  intros (_ & _ & _ & _ & _ & _ & Hd).
  unfold filt_freq. specialize (Hd PcutoffFact eq_refl). cbn in Hd. rewrite Hd.
  reflexivity.
Qed.

(** C3. The cutoff attribute of the filter is the product object
    env * 20000 * cutoffFact, built left to right: right after construction,
    right after every [setCutoffFact(x)] (with [x] as the last factor), and
    in every instance reachable by method calls.  At each sample its value is
    the envelope's level times 20000 times the value of the factor. *)
Theorem cutoff_is_env_times_ceiling_times_factor (R : sources) (n : nat) :
  (forall k,
      MoogLP.freq (_filt (new k)) = cutoff_expr (cutoffFact (new k))
      /\ filt_freq R (new k) n
         = src_env R n * 20000 * eval (graph3 R (new k)) (cutoffFact (new k)) n)
  /\ (forall self x,
      MoogLP.freq (_filt (setCutoffFact self x)) = cutoff_expr x
      /\ cutoffFact (setCutoffFact self x) = x
      /\ filt_freq R (setCutoffFact self x) n
         = src_env R n * 20000 * eval (graph3 R (setCutoffFact self x)) x n)
  /\ (forall L k cs,
      filt_freq R (run L (new k) cs) n
      = src_env R n * 20000
        * eval (graph3 R (run L (new k) cs)) (cutoffFact (run L (new k) cs)) n).
Proof.
  split; [|split].
  - intros k. split; [reflexivity|]. apply filt_freq_wired, wired_new.
  - intros self x. repeat split; reflexivity.
  - intros L k cs. apply filt_freq_wired, wired_reachable.
Qed.

(** *** The signal entering the filter *)

Lemma filt_input_wired (R : sources) (s : mySubSynth) (n : nat) :
  wired s ->
  filt_input R s n
  = wave3 R s n * src_env R n
    + (wave2 R s n * src_env R n + (wave1 R s n * src_env R n + 0)).
Proof.
  intros (_ & (_ & M1 & A1) & (_ & M2 & A2) & (_ & M3 & A3) & Hf & _ & _).
  unfold filt_input. rewrite Hf. cbn [eval].
  change (graph3 R s OSC3 n) with (LFO_out R OSC3 (graph2 R s) (_osc3 s) n).
  unfold LFO_out at 1. rewrite M3, A3. cbn [eval].
  change (graph2 R s ENV n) with (src_env R n).
  change (graph2 R s OSC2 n) with (LFO_out R OSC2 (graph1 R s) (_osc2 s) n).
  unfold LFO_out at 1. rewrite M2, A2. cbn [eval].
  change (graph1 R s ENV n) with (src_env R n).
  change (graph1 R s OSC1 n) with (LFO_out R OSC1 (inputs R) (_osc1 s) n).
  unfold LFO_out at 1. rewrite M1, A1. cbn [eval].
  reflexivity.
Qed.

(** C5. In every reachable instance the sample entering the filter is the
    sum of the three oscillators' raw samples, each multiplied by the
    envelope's level (accumulated along the [add] chain osc1, osc2, osc3);
    by distributivity it equals the spec's formulation, the bank sum of the
    three oscillators multiplied once by the envelope's level. *)
Theorem filter_input_is_enveloped_sum (L : pyo) (R : sources) (k : kwargs)
    (cs : list call) (n : nat) :
  filt_input R (run L (new k) cs) n
  = wave3 R (run L (new k) cs) n * src_env R n
    + (wave2 R (run L (new k) cs) n * src_env R n
       + (wave1 R (run L (new k) cs) n * src_env R n + 0))
  /\ filt_input R (run L (new k) cs) n == spec_voice_input R (run L (new k) cs) n.
Proof.
  pose proof (filt_input_wired R _ n (wired_reachable L k cs)) as H.
  split; [exact H|].
  rewrite H. unfold spec_voice_input. ring.
Qed.

(** *** The envelope *)

Lemma env_reachable (L : pyo) (k : kwargs) (cs : list call) :
  _env (run L (new k) cs) = MidiAdsr.mk (PyObj VELOCITY) 0.05 0.4 0.2 0.5 0.65.
Proof. exact (proj1 (wired_reachable L k cs)). Qed.

(** C6, as stated, fails at the sustain stage: with velocity 1 the output of
    the envelope object at 0.45 s is 0.13, not 0.2, because the constructor
    call also passes mul=0.65. *)
Lemma sustain_output_is_scaled : ~ sustain_as_claimed (new no_args).
Proof.
  unfold sustain_as_claimed. intros H.
  apply Qeq_bool_iff in H. vm_compute in H. discriminate H.
Qed.

(** The level and the output are proportional to the velocity. *)
Lemma adsr_level_scales (e : MidiAdsr.t) (v t_off t : Q) :
  adsr_level e v t_off t == v * adsr_level e 1 t_off t.
Proof.
  unfold adsr_level, held_level, ramp, Qdiv.
  repeat match goal with
  | |- context [Qle_bool ?a ?b] => destruct (Qle_bool a b)
  end; ring.
Qed.

Lemma MidiAdsr_out_scales (e : MidiAdsr.t) (v t_off t : Q) :
  MidiAdsr_out e v t_off t == v * MidiAdsr_out e 1 t_off t.
Proof. unfold MidiAdsr_out. rewrite adsr_level_scales. ring. Qed.

(** The scenario at unit velocity, on the envelope [__init__] creates. *)
Lemma unit_velocity_scenario :
  let e := MidiAdsr.mk (PyObj VELOCITY) 0.05 0.4 0.2 0.5 0.65 in
  (forall t, 0.45 <= t -> t <= 0.6 -> adsr_level e 1 0.6 t == 0.2)
  /\ (forall t, MidiAdsr_out e 1 0.6 t <= 0.65)
  /\ (forall t, 0.45 <= t -> t <= 0.6 -> MidiAdsr_out e 1 0.6 t == 0.13)
  /\ (forall t t', 0.6 <= t -> t < t' -> t' <= 1.1 ->
        MidiAdsr_out e 1 0.6 t' < MidiAdsr_out e 1 0.6 t)
  /\ (forall t, 1.1 <= t -> MidiAdsr_out e 1 0.6 t == 0).
Proof.
  intros e; subst e. split; [|split; [|split; [|split]]].
  - intros t H1 H2. open_envelope. split_time; lra.
  - intros t. open_envelope. split_time; lra.
  - intros t H1 H2. open_envelope. split_time; lra.
  - intros t t' H1 H2 H3. open_envelope. split_time; lra.
  - intros t H. open_envelope. split_time; lra.
Qed.

(** C6, amended. In every reachable instance the envelope is configured with
    attack 0.05 s, decay 0.4 s, sustain 0.2, release 0.5 s and output gain
    mul = 0.65.  For a note-on with velocity [v] > 0 at t = 0 and a note-off
    at 0.6 s, the level before the gain is [v] at 0.05 s and 0.2 * [v] from
    0.45 s to 0.6 s; the object's output is that level times 0.65: it peaks
    at 0.65 * [v] at 0.05 s, holds 0.2 * 0.65 * [v] = 0.13 * [v] from 0.45 s
    to 0.6 s, declines strictly from 0.6 s on and is 0 from 1.1 s on. *)
Theorem envelope_scenario (L : pyo) (k : kwargs) (cs : list call) (v : Q) :
  0 < v ->
  (MidiAdsr.attack (_env (run L (new k) cs)) = 0.05
   /\ MidiAdsr.decay (_env (run L (new k) cs)) = 0.4
   /\ MidiAdsr.sustain (_env (run L (new k) cs)) = 0.2
   /\ MidiAdsr.release (_env (run L (new k) cs)) = 0.5
   /\ MidiAdsr.mul (_env (run L (new k) cs)) = 0.65)
  /\ (adsr_level (_env (run L (new k) cs)) v 0.6 0.05 == v
      /\ forall t, 0.45 <= t -> t <= 0.6 ->
           adsr_level (_env (run L (new k) cs)) v 0.6 t == 0.2 * v)
  /\ (MidiAdsr_out (_env (run L (new k) cs)) v 0.6 0.05 == 0.65 * v
      /\ forall t, MidiAdsr_out (_env (run L (new k) cs)) v 0.6 t <= 0.65 * v)
  /\ (forall t, 0.45 <= t -> t <= 0.6 ->
        MidiAdsr_out (_env (run L (new k) cs)) v 0.6 t == 0.13 * v)
  /\ (forall t t', 0.6 <= t -> t < t' -> t' <= 1.1 ->
        MidiAdsr_out (_env (run L (new k) cs)) v 0.6 t'
        < MidiAdsr_out (_env (run L (new k) cs)) v 0.6 t)
  /\ (forall t, 1.1 <= t -> MidiAdsr_out (_env (run L (new k) cs)) v 0.6 t == 0).
Proof.
  intros Hv. rewrite env_reachable.
  destruct unit_velocity_scenario as (Lsus & Omax & Osus & Odec & Oend).
  split; [repeat split; reflexivity|].
  split; [split|split; [split|split; [|split]]].
  - rewrite adsr_level_scales.
    assert (H : adsr_level (MidiAdsr.mk (PyObj VELOCITY) 0.05 0.4 0.2 0.5 0.65)
                  1 0.6 0.05 == 1) by reflexivity.
    rewrite H. ring.
  - intros t H1 H2. rewrite adsr_level_scales, (Lsus t H1 H2). ring.
  - rewrite MidiAdsr_out_scales.
    assert (H : MidiAdsr_out (MidiAdsr.mk (PyObj VELOCITY) 0.05 0.4 0.2 0.5 0.65)
                  1 0.6 0.05 == 0.65) by reflexivity.
    rewrite H. ring.
  - intros t. rewrite MidiAdsr_out_scales, (Qmult_comm 0.65 v).
    apply Qmult_le_l; [exact Hv | apply Omax].
  - intros t H1 H2. rewrite MidiAdsr_out_scales, (Osus t H1 H2). ring.
  - intros t t' H1 H2 H3.
    rewrite (MidiAdsr_out_scales _ v _ t'), (MidiAdsr_out_scales _ v _ t).
    apply Qmult_lt_l; [exact Hv | now apply Odec].
  - intros t H. rewrite MidiAdsr_out_scales, (Oend t H). ring.
Qed.

(** The scenario of the spec: velocity 1, read at 0.05 s, 0.45 s, 0.6 s,
    0.85 s and 1.1 s. *)
Lemma envelope_scenario_witness :
  0 < 1
  /\ MidiAdsr_out (_env (run demo_pyo (new no_args) demo_calls)) 1 0.6 0.05 == 0.65
  /\ MidiAdsr_out (_env (run demo_pyo (new no_args) demo_calls)) 1 0.6 0.45 == 0.13
  /\ MidiAdsr_out (_env (run demo_pyo (new no_args) demo_calls)) 1 0.6 0.85
     < MidiAdsr_out (_env (run demo_pyo (new no_args) demo_calls)) 1 0.6 0.6
  /\ MidiAdsr_out (_env (run demo_pyo (new no_args) demo_calls)) 1 0.6 1.1 == 0.
Proof.
  assert (Hv : 0 < 1) by reflexivity.
  destruct (envelope_scenario demo_pyo no_args demo_calls 1 Hv)
    as (_ & _ & (Hpeak & _) & Hsus & Hdec & Hend).
  split; [exact Hv|].
  split; [rewrite Hpeak; reflexivity|].
  split; [rewrite (Hsus 0.45); [reflexivity| |]; discriminate|].
  split; [apply (Hdec 0.6 0.85); [discriminate|reflexivity|discriminate]|].
  apply (Hend 1.1); discriminate.
Defined.

(** *** The panner *)

Lemma stereo_out_wired (F : filter_alg) (P : pan_law) (R : sources)
    (s : mySubSynth) (n : nat) :
  wired s -> stereo_out F P R s n = P (filt_out F R s n) 0.5.
Proof.
  intros (_ & _ & _ & _ & _ & (Hi & _ & Hp) & _).
  unfold stereo_out. rewrite Hi, Hp. reflexivity.
Qed.

Lemma pan_linear_symmetric : centre_symmetric pan_linear.
Proof. intros x pan. unfold pan_linear; cbn [fst snd]. ring. Qed.

(** C9. In every reachable instance the panner takes the filter's output,
    has two outputs and sits at pan = 0.5; no parameter name and no slider of
    the control surface addresses the pan position.  Hence, whatever the
    filter and the configuration, the two channels carry the same sample
    under any pan law that is symmetric about the centre; under the linear
    law each carries half the filter's output. *)
Theorem stereo_fixed_at_centre (L : pyo) (k : kwargs) (cs : list call) :
  Pan.input (_stereo (run L (new k) cs)) = PyObj FILT
  /\ Pan.outs (_stereo (run L (new k) cs)) = 2%Z
  /\ Pan.pan (_stereo (run L (new k) cs)) = PyFloat 0.5
  /\ ~ In "pan" (map param_name all_params)
  /\ (forall self m t w,
        ~ In "pan" (map SLMap.name (sliders (snd (ctrl self m t w)))))
  /\ (forall P F R n, centre_symmetric P ->
        fst (stereo_out F P R (run L (new k) cs) n)
        == snd (stereo_out F P R (run L (new k) cs) n))
  /\ (forall F R n,
        fst (stereo_out F pan_linear R (run L (new k) cs) n)
        == filt_out F R (run L (new k) cs) n * 0.5
        /\ snd (stereo_out F pan_linear R (run L (new k) cs) n)
           == filt_out F R (run L (new k) cs) n * 0.5).
Proof.
  pose proof (wired_reachable L k cs) as W.
  destruct W as (_ & _ & _ & _ & _ & (Hi & Ho & Hp) & _).
  split; [exact Hi|]. split; [exact Ho|]. split; [exact Hp|].
  split; [|split; [|split]].
  - cbn. intros H. repeat (destruct H as [H|H]; [discriminate H|]). exact H.
  - intros self m t w. cbn.
    intros H. repeat (destruct H as [H|H]; [discriminate H|]). exact H.
  - intros P F R n Hsym.
    rewrite (stereo_out_wired F P R _ n (wired_reachable L k cs)).
    exact (Hsym (filt_out F R (run L (new k) cs) n) 0.5).
  - intros F R n.
    rewrite (stereo_out_wired F pan_linear R _ n (wired_reachable L k cs)).
    unfold pan_linear; cbn [fst snd]. split; ring.
Qed.

(** A session that changes every kind of parameter and restarts playback
    still renders equal channels. *)
Lemma stereo_fixed_at_centre_witness :
  fst (stereo_out (ladder_filter demo_coef 22050) pan_linear demo_sources
         (run demo_pyo (new no_args) demo_calls) 5%nat)
  == snd (stereo_out (ladder_filter demo_coef 22050) pan_linear demo_sources
            (run demo_pyo (new no_args) demo_calls) 5%nat).
Proof.
  destruct (stereo_fixed_at_centre demo_pyo no_args demo_calls)
    as (_ & _ & _ & _ & _ & Heq & _).
  exact (Heq pan_linear (ladder_filter demo_coef 22050) demo_sources 5%nat
           pan_linear_symmetric).
Defined.

(** *** Cutoff factor 0 *)

Lemma clamp_zero (hi c : Q) : c == 0 -> clamp 0 hi c == 0.
Proof.
  intros Hc. unfold clamp. apply Q.max_l.
  rewrite <- Hc. apply Q.le_min_r.
Qed.

Lemma one_pole_closed (g x y : Q) : g == 0 -> one_pole g x y == y.
Proof. intros Hg. unfold one_pole. rewrite Hg. ring. Qed.

(** With the cutoff at 0 the filter's memory never leaves rest, whatever the
    input and the resonance. *)
Lemma ladder_stays_at_rest (coef : Q -> Q) (nyquist : Q) (inp fc r : signal) :
  (forall c, c == 0 -> coef c == 0) ->
  (forall n, fc n == 0) ->
  forall n,
    let st := ladder_run coef nyquist inp fc r n in
    y1 st == 0 /\ y2 st == 0 /\ y3 st == 0 /\ y4 st == 0.
Proof.
  intros Hcoef Hfc n. induction n as [|n IH]; cbn zeta in *.
  - cbn. repeat split; reflexivity.
  - destruct IH as (H1 & H2 & H3 & H4).
    assert (Hg : coef (clamp 0 nyquist (fc n)) == 0)
      by (apply Hcoef, clamp_zero, Hfc).
    cbn [ladder_run]. unfold ladder_step. cbn [y1 y2 y3 y4].
    repeat split; repeat rewrite (one_pole_closed _ _ _ Hg); assumption.
Qed.

Lemma eval_zero (rho : objref -> signal) (v : pyval) (n : nat) :
  is_zero v -> eval rho v n == 0.
Proof.
  destruct v; cbn; intros H; try contradiction.
  - subst z. reflexivity.
  - exact H.
Qed.

(** C7. In every reachable instance whose cutoff factor is the number 0, the
    cutoff of the filter is 0 Hz at every sample, for every envelope level.
    With the ladder filter starting at rest, for any coefficient mapping that
    is 0 at cutoff 0, both output channels are then 0 at every sample,
    whatever the oscillators produce and whatever the resonance is. *)
Theorem zero_cutoff_factor_silences (L : pyo) (coef : Q -> Q) (nyquist : Q)
    (R : sources) (k : kwargs) (cs : list call) :
  (forall c, c == 0 -> coef c == 0) ->
  is_zero (cutoffFact (run L (new k) cs)) ->
  forall n,
    filt_freq R (run L (new k) cs) n == 0
    /\ fst (stereo_out (ladder_filter coef nyquist) pan_linear R (run L (new k) cs) n) == 0
    /\ snd (stereo_out (ladder_filter coef nyquist) pan_linear R (run L (new k) cs) n) == 0.
Proof.
  intros Hcoef Hz.
  assert (Hfreq : forall n, filt_freq R (run L (new k) cs) n == 0).
  { intros n. rewrite (filt_freq_wired R _ n (wired_reachable L k cs)).
    rewrite (eval_zero _ _ n Hz). ring. }
  intros n. split; [apply Hfreq|].
  rewrite (stereo_out_wired _ pan_linear R _ n (wired_reachable L k cs)).
  assert (Hout : filt_out (ladder_filter coef nyquist) R (run L (new k) cs) n == 0).
  { unfold filt_out, ladder_filter.
    apply (ladder_stays_at_rest coef nyquist _ _ _ Hcoef Hfreq (S n)). }
  unfold pan_linear; cbn [fst snd]. rewrite Hout. split; ring.
Qed.

Lemma zero_cutoff_factor_silences_witness :
  filt_freq demo_sources (run demo_pyo (new no_args) demo_calls) 3%nat == 0
  /\ fst (stereo_out (ladder_filter demo_coef 22050) pan_linear demo_sources
            (run demo_pyo (new no_args) demo_calls) 3%nat) == 0.
Proof.
  assert (Hcoef : forall c, c == 0 -> demo_coef c == 0).
  { intros c Hc. unfold demo_coef. rewrite Hc. reflexivity. }
  assert (Hz : is_zero (cutoffFact (run demo_pyo (new no_args) demo_calls)))
    by reflexivity.
  destruct (zero_cutoff_factor_silences demo_pyo demo_coef 22050 demo_sources
              no_args demo_calls Hcoef Hz 3%nat) as (H1 & H2 & _).
  split; [exact H1 | exact H2].
Defined.

(** *** Evaluations on a fresh synthesizer *)

(** With the defaults the cutoff is 0.65 * 20000 * 0.5 = 6500 Hz while the
    envelope's output is 0.65; a factor of 0.25 halves it. *)
Example default_cutoff :
  filt_freq demo_sources (new no_args) 0%nat == 6500
  /\ filt_freq demo_sources (setCutoffFact (new no_args) (PyFloat 0.25)) 0%nat
     == 3250.
Proof. split; reflexivity. Qed.

(** Three oscillators at 1, each times the envelope's 0.65. *)
Example default_filter_input :
  filt_input demo_sources (new no_args) 0%nat == 1.95.
Proof. reflexivity. Qed.

(** The envelope's output for velocity 1 and a note-off at 0.6 s, sampled at
    0, 0.025, 0.05, 0.25, 0.45, 0.6, 0.85, 1.1 and 2 s. *)
Example envelope_samples :
  map (fun t => Qred (MidiAdsr_out (_env (new no_args)) 1 0.6 t))
      [0; 0.025; 0.05; 0.25; 0.45; 0.6; 0.85; 1.1; 2]
  = map Qred [0; 0.325; 0.65; 0.39; 0.13; 0.13; 0.065; 0; 0].
Proof. vm_compute. reflexivity. Qed.

(** A resonance of 2 is kept as given, in the attribute and in the filter. *)
Example resonance_two :
  res (setRes (new no_args) (PyFloat 2)) = PyFloat 2
  /\ MoogLP.res (_filt (setRes (new no_args) (PyFloat 2))) = PyFloat 2.
Proof. split; reflexivity. Qed.

(** ** Further properties of the methods *)

(** *** Sessions of calls *)

Lemma param_eqb_eq (p q : param) : param_eqb p q = true <-> p = q.
Proof.
  split.
  - destruct p, q; intros H; try reflexivity; discriminate H.
  - intros ->. destruct q; reflexivity.
Qed.

Lemma getattr_step (L : pyo) (s : mySubSynth) (c : call) (p : param) :
  getattr (step L s c) p
  = match assigns p c with Some x => x | None => getattr s p end.
Proof.
  destruct c as [q x|q x|m t w|dur delay| |chnl inc dur delay];
    try (destruct p; reflexivity);
    unfold step; try rewrite property_setter_is_method;
    rewrite setter_cases; destruct (takes L q x); destruct p, q; reflexivity.
Qed.

Lemma dsp_attr_step (L : pyo) (s : mySubSynth) (c : call) (p : param) :
  dsp_attr (step L s c) p
  = match reaches L p c with Some x => dsp_value p x | None => dsp_attr s p end.
Proof.
  destruct c as [q x|q x|m t w|dur delay| |chnl inc dur delay];
    try (destruct p; reflexivity);
    unfold step; try rewrite property_setter_is_method;
    rewrite setter_cases; unfold reaches;
    destruct (takes L q x) eqn:E; destruct p, q;
      cbn [assigns param_eqb param_name String.eqb Ascii.eqb Bool.eqb];
      try rewrite E; reflexivity.
Qed.

(** X1. After any list of calls a parameter reads as the value of the last
    call that set it, by method or by property, and as it read before when no
    call set it.  The attribute of the signal-processing object holds the
    value of the last such call whose assignment reached the object: for the
    sharpness, the cutoff factor and the resonance that is the same call; for
    a waveform type, calls the oscillator refused are passed over.  Calls to
    [ctrl], [play], [stop] and [out] and calls on other parameters never
    count. *)
Theorem parameter_is_last_assigned (L : pyo) (s : mySubSynth) (cs : list call)
    (p : param) :
  getattr (run L s cs) p
  = match last_assigned p cs with Some x => x | None => getattr s p end
  /\ dsp_attr (run L s cs) p
     = match last_taken L p cs with
       | Some x => dsp_value p x
       | None => dsp_attr s p
       end
  /\ (is_type p = false -> last_taken L p cs = last_assigned p cs).
Proof.
  split; [|split].
  - unfold run. revert s.
    induction cs as [|c cs IH]; intros s; cbn [fold_left last_assigned].
    + reflexivity.
    + rewrite IH. destruct (last_assigned p cs) as [x|].
      * reflexivity.
      * apply getattr_step.
  - unfold run. revert s.
    induction cs as [|c cs IH]; intros s; cbn [fold_left last_taken].
    + reflexivity.
    + rewrite IH. destruct (last_taken L p cs) as [x|].
      * reflexivity.
      * apply dsp_attr_step.
  - intros Hp. induction cs as [|c cs IH]; cbn [last_taken last_assigned].
    + reflexivity.
    + rewrite IH. destruct (last_assigned p cs); [reflexivity|].
      unfold reaches, takes. rewrite Hp. destruct (assigns p c); reflexivity.
Qed.

Lemma playing_flags_step (L : pyo) (s : mySubSynth) (c : call) :
  playing_flags (step L s c)
  = match transport c with
    | Some (a, b) => [a; a; a; a; b]
    | None => playing_flags s
    end.
Proof.
  destruct c as [q x|q x|m t w|dur delay| |chnl inc dur delay];
    try reflexivity;
    unfold step; try rewrite property_setter_is_method;
    rewrite setter_cases; destruct (takes L q x); destruct q; reflexivity.
Qed.

(** X2. The five objects are always addressed together.  After any list of
    calls on a new synthesizer, the three oscillators and the filter hold the
    request of the last [play], [out] or [stop] in the list: [play] with that
    call's [dur] and [delay] after [play] and after [out], [stop] after
    [stop]; the panner holds the same, except that after [out] its request is
    [out] with that call's channel, increment, [dur] and [delay].  With no
    such call all five are as created.  Setters and [ctrl] never address the
    playback of any object. *)
Theorem chain_plays_as_last_transport (L : pyo) (k : kwargs) (cs : list call) :
  playing_flags (run L (new k) cs)
  = match last_transport cs with
    | Some (a, b) => [a; a; a; a; b]
    | None => [AsCreated; AsCreated; AsCreated; AsCreated; AsCreated]
    end.
Proof.
  assert (G : forall s,
             playing_flags (run L s cs)
             = match last_transport cs with
               | Some (a, b) => [a; a; a; a; b]
               | None => playing_flags s
               end).
  { unfold run. induction cs as [|c cs IH]; intros s;
      cbn [fold_left last_transport].
    - reflexivity.
    - rewrite IH. destruct (last_transport cs) as [[a b]|].
      + reflexivity.
      + apply playing_flags_step. }
  rewrite G. destruct (last_transport cs) as [[a b]|]; reflexivity.
Qed.

(** X3. [play], [stop] and [out] touch nothing but the requests held by the
    five objects: stored parameters, object attributes, envelope, routing and
    slider lists are as before, so the instances before and after such a call
    are equal once the requests are reset in both. *)
Theorem transport_changes_only_playing (L : pyo) (s : mySubSynth) (c : call)
    (a b : transport_state) :
  transport c = Some (a, b) ->
  set_playing AsCreated (step L s c) = set_playing AsCreated s
  /\ playing_flags (step L s c) = [a; a; a; a; b]
  /\ _env (step L s c) = _env s
  /\ stored_sliders (step L s c) = stored_sliders s
  /\ (forall p, getattr (step L s c) p = getattr s p
                /\ dsp_attr (step L s c) p = dsp_attr s p).
Proof.
  intros H.
  destruct c as [q x|q x|m t w|dur delay| |chnl inc dur delay];
    try discriminate H; injection H as <- <-;
    (repeat split; try reflexivity; destruct p; reflexivity).
Qed.

(** A delayed [play] after a changed resonance: the resonance and the
    envelope are as before, and every object holds the delayed request. *)
Lemma transport_changes_only_playing_witness :
  transport (Play 0 0.5) = Some (PlayCalled 0 0.5, PlayCalled 0 0.5)
  /\ getattr (step demo_pyo (setRes (new no_args) (PyFloat 0.9)) (Play 0 0.5)) Pres
     = PyFloat 0.9
  /\ playing_flags (step demo_pyo (setRes (new no_args) (PyFloat 0.9)) (Play 0 0.5))
     = [PlayCalled 0 0.5; PlayCalled 0 0.5; PlayCalled 0 0.5;
        PlayCalled 0 0.5; PlayCalled 0 0.5].
Proof.
  assert (H : transport (Play 0 0.5) = Some (PlayCalled 0 0.5, PlayCalled 0 0.5))
    by reflexivity.
  destruct (transport_changes_only_playing demo_pyo
              (setRes (new no_args) (PyFloat 0.9)) (Play 0 0.5) _ _ H)
    as (_ & Hflags & _ & _ & Hp).
  split; [exact H|]. split; [|exact Hflags].
  destruct (Hp Pres) as (Hg & _). rewrite Hg. reflexivity.
Defined.

(** *** Setters compose *)

(** X5. Setters of different parameters commute: the two calls give the same
    instance in either order, also when both write to the same oscillator or
    both to the filter, and also when the oscillator refuses one of them. *)
Theorem setters_commute (L : pyo) (p q : param) (s : mySubSynth) (x y : pyval) :
  p <> q ->
  setter L p (setter L q s y) x = setter L q (setter L p s x) y.
Proof.
  intros H. rewrite !setter_cases.
  destruct (takes L p x), (takes L q y);
    destruct p, q; try (exfalso; apply H; reflexivity); reflexivity.
Qed.

Lemma setters_commute_witness :
  Ptype1 <> Psharp1
  /\ setter demo_pyo Psharp1 (setter demo_pyo Ptype1 (new no_args) (PyInt 3))
        (PyFloat 0.25)
     = setter demo_pyo Ptype1 (setter demo_pyo Psharp1 (new no_args) (PyFloat 0.25))
         (PyInt 3).
Proof.
  assert (H : Psharp1 <> Ptype1) by discriminate.
  split; [discriminate|].
  exact (setters_commute demo_pyo Psharp1 Ptype1 (new no_args)
           (PyFloat 0.25) (PyInt 3) H).
Defined.

(** *** Invariants of every reachable instance *)

Lemma types_follow_setter (L : pyo) (q : param) (s : mySubSynth) (x : pyval) :
  types_follow L s -> types_follow L (setter L q s x).
Proof.
  intros H p Hp Ht. specialize (H p Hp).
  rewrite setter_cases in *.
  destruct (takes L q x) eqn:E;
    destruct p; try discriminate Hp; destruct q; cbn in *;
    try (apply H; exact Ht); try reflexivity;
    rewrite E in Ht; discriminate Ht.
Qed.

Lemma types_follow_step (L : pyo) (s : mySubSynth) (c : call) :
  types_follow L s -> types_follow L (step L s c).
Proof.
  intros H.
  destruct c as [q x|q x|m t w|dur delay| |chnl inc dur delay]; unfold step.
  - now apply types_follow_setter.
  - rewrite property_setter_is_method. now apply types_follow_setter.
  - intros p Hp Ht. specialize (H p Hp).
    destruct p; try discriminate Hp; cbn in *; apply H; exact Ht.
  - intros p Hp Ht. specialize (H p Hp).
    destruct p; try discriminate Hp; cbn in *; apply H; exact Ht.
  - intros p Hp Ht. specialize (H p Hp).
    destruct p; try discriminate Hp; cbn in *; apply H; exact Ht.
  - intros p Hp Ht. specialize (H p Hp).
    destruct p; try discriminate Hp; cbn in *; apply H; exact Ht.
Qed.

Lemma types_follow_reachable (L : pyo) (k : kwargs) (cs : list call) :
  types_follow L (run L (new k) cs).
Proof.
  assert (G : forall s, types_follow L s -> types_follow L (run L s cs)).
  { unfold run. induction cs as [|c cs IH]; intros s H; cbn [fold_left].
    - exact H.
    - apply IH. now apply types_follow_step. }
  apply G. intros p Hp _. destruct p; try discriminate Hp; reflexivity.
Qed.

(** X7. In every instance reachable by calls, a stored parameter and the
    attribute of the object it drives agree whenever the stored value is one
    the object takes: always for the sharpness, the cutoff factor (as
    env * 20000 * factor) and the resonance, and for a waveform type unless
    the oscillator refused the value last stored. *)
Theorem stored_parameters_match_objects (L : pyo) (k : kwargs) (cs : list call)
    (p : param) :
  takes L p (getattr (run L (new k) cs) p) = true ->
  dsp_attr (run L (new k) cs) p = dsp_value p (getattr (run L (new k) cs) p).
Proof.
  intros Ht.
  destruct (is_type p) eqn:Hp.
  - rewrite (types_follow_reachable L k cs p Hp Ht).
    destruct p; try discriminate Hp; reflexivity.
  - pose proof (wired_reachable L k cs) as W.
    destruct W as (_ & _ & _ & _ & _ & _ & Hd). now apply Hd.
Qed.

(** After a refused type and a later accepted one, stored value and
    oscillator agree again. *)
Lemma stored_parameters_match_objects_witness :
  takes demo_pyo Ptype1
    (getattr (run demo_pyo (new no_args)
                [Method Ptype1 (PyFloat 2.5); Assign Ptype1 (PyInt 3)]) Ptype1)
  = true
  /\ dsp_attr (run demo_pyo (new no_args)
                 [Method Ptype1 (PyFloat 2.5); Assign Ptype1 (PyInt 3)]) Ptype1
     = PyInt 3.
Proof.
  assert (H : takes demo_pyo Ptype1
                (getattr (run demo_pyo (new no_args)
                            [Method Ptype1 (PyFloat 2.5); Assign Ptype1 (PyInt 3)])
                   Ptype1) = true) by reflexivity.
  split; [exact H|].
  rewrite (stored_parameters_match_objects demo_pyo no_args
             [Method Ptype1 (PyFloat 2.5); Assign Ptype1 (PyInt 3)] Ptype1 H).
  reflexivity.
Defined.

(** X6. A setter overwrites.  Calling it twice with the same value leaves
    what one call leaves; when the second of two calls reaches the object, the
    pair leaves what the second alone would leave; and on any reachable
    instance, calling a setter with the value currently stored changes
    nothing. *)
Theorem setter_overwrites (L : pyo) (p : param) (s : mySubSynth) (x y : pyval) :
  setter L p (setter L p s x) x = setter L p s x
  /\ (takes L p x = true -> setter L p (setter L p s y) x = setter L p s x)
  /\ (forall k cs,
        setter L p (run L (new k) cs) (getattr (run L (new k) cs) p)
        = run L (new k) cs).
Proof.
  split; [|split].
  - rewrite !setter_cases. destruct (takes L p x); destruct p; reflexivity.
  - intros Ht. rewrite !setter_cases, Ht.
    destruct (takes L p y); destruct p; reflexivity.
  - intros k cs. rewrite setter_cases.
    destruct (takes L p (getattr (run L (new k) cs) p)) eqn:Ht.
    + pose proof (stored_parameters_match_objects L k cs p Ht) as Hd.
      destruct (run L (new k) cs) as
        [t1 s1 t2 s2 t3 s3 cf rs e o1 o2 o3 f st mo mf].
      destruct p; cbn in *;
        try (destruct o1; cbn in *; subst; reflexivity);
        try (destruct o2; cbn in *; subst; reflexivity);
        try (destruct o3; cbn in *; subst; reflexivity);
        destruct f; cbn in *; subst; reflexivity.
    + destruct (run L (new k) cs) as
        [t1 s1 t2 s2 t3 s3 cf rs e o1 o2 o3 f st mo mf].
      destruct p; reflexivity.
Qed.

(** X8. No call changes the routing: in every reachable instance each
    oscillator takes its frequency from the note pitch and its amplitude from
    the envelope, osc1 adds nothing, osc2 adds osc1, osc3 adds osc2, the
    filter reads osc3, and the envelope object is the one [__init__]
    created. *)
Theorem routing_is_fixed (L : pyo) (k : kwargs) (cs : list call) :
  map LFO.freq [_osc1 (run L (new k) cs); _osc2 (run L (new k) cs); _osc3 (run L (new k) cs)]
  = [PyObj FREQS; PyObj FREQS; PyObj FREQS]
  /\ map LFO.mul [_osc1 (run L (new k) cs); _osc2 (run L (new k) cs); _osc3 (run L (new k) cs)]
     = [PyObj ENV; PyObj ENV; PyObj ENV]
  /\ map LFO.add [_osc1 (run L (new k) cs); _osc2 (run L (new k) cs); _osc3 (run L (new k) cs)]
     = [PyInt 0; PyObj OSC1; PyObj OSC2]
  /\ MoogLP.input (_filt (run L (new k) cs)) = PyObj OSC3
  /\ _env (run L (new k) cs) = _env (new no_args).
Proof.
  pose proof (wired_reachable L k cs) as W.
  destruct W as (He & (F1 & M1 & A1) & (F2 & M2 & A2) & (F3 & M3 & A3) & Hf & _ & _).
  cbn [map]. rewrite F1, F2, F3, M1, M2, M3, A1, A2, A3, Hf, He.
  repeat split; reflexivity.
Qed.

(** *** The control windows *)

(** X9. [ctrl] writes the two slider lists and nothing else, never reads its
    [map_list] argument, and is repeatable: a second call on the unchanged
    instance asks for the same windows and leaves the same instance. *)
Theorem ctrl_only_rebuilds_slider_lists (s : mySubSynth)
    (m m' : option (list SLMap.t)) (t : option string) (w : bool) :
  ctrl s m t w = ctrl s m' t w
  /\ ctrl (fst (ctrl s m t w)) m' t w = ctrl s m t w
  /\ stored_sliders (fst (ctrl s m t w)) = sliders (snd (ctrl s m t w))
  /\ playing_flags (fst (ctrl s m t w)) = playing_flags s
  /\ (_env (fst (ctrl s m t w)) = _env s
      /\ _osc1 (fst (ctrl s m t w)) = _osc1 s
      /\ _osc2 (fst (ctrl s m t w)) = _osc2 s
      /\ _osc3 (fst (ctrl s m t w)) = _osc3 s
      /\ _filt (fst (ctrl s m t w)) = _filt s
      /\ _stereo (fst (ctrl s m t w)) = _stereo s).
Proof. repeat split; reflexivity. Qed.

(** X10. The slider lists are a snapshot: a setter called after [ctrl]
    changes the parameter but not the lists kept on the instance, which go
    on showing the values read when the windows were built; only a new
    [ctrl] picks up the new value. *)
Theorem slider_lists_are_a_snapshot (L : pyo) (p : param) (s : mySubSynth)
    (x : pyval) (m : option (list SLMap.t)) (t : option string) (w : bool) :
  map SLMap.init (stored_sliders (setter L p (fst (ctrl s m t w)) x))
  = map (getattr s) all_params
  /\ getattr (setter L p (fst (ctrl s m t w)) x) p = x
  /\ map SLMap.init
       (stored_sliders (fst (ctrl (setter L p (fst (ctrl s m t w)) x) m t w)))
     = map (getattr (setter L p s x)) all_params.
Proof.
  rewrite !setter_cases.
  destruct (takes L p x); destruct p; repeat split; reflexivity.
Qed.

(** X11. [ctrl] does not validate: when a parameter holds a value outside
    its declared range, the slider built for it starts at that value, outside
    the slider's own minimum and maximum. *)
Theorem ctrl_does_not_validate (L : pyo) (p : param) (s : mySubSynth)
    (x : pyval) (m : option (list SLMap.t)) (t : option string) (w : bool) :
  ~ in_range (declared_range p) x ->
  exists sl,
    In sl (sliders (snd (ctrl (setter L p s x) m t w)))
    /\ SLMap.name sl = param_name p
    /\ SLMap.init sl = x
    /\ ~ in_range (SLMap.min sl, SLMap.max sl) (SLMap.init sl).
Proof.
  intros H. rewrite setter_cases.
  destruct (takes L p x); destruct p;
    [ exists (SLMap.mk 0 7 "lin" "type1" x "int" true)
    | exists (SLMap.mk 0 1 "lin" "sharp1" x "float" false)
    | exists (SLMap.mk 0 7 "lin" "type2" x "int" true)
    | exists (SLMap.mk 0 1 "lin" "sharp2" x "float" false)
    | exists (SLMap.mk 0 7 "lin" "type3" x "int" true)
    | exists (SLMap.mk 0 1 "lin" "sharp3" x "float" false)
    | exists (SLMap.mk 0 1 "lin" "cutoffFact" x "float" false)
    | exists (SLMap.mk 0 1 "lin" "res" x "float" false)
    | exists (SLMap.mk 0 7 "lin" "type1" x "int" true)
    | exists (SLMap.mk 0 1 "lin" "sharp1" x "float" false)
    | exists (SLMap.mk 0 7 "lin" "type2" x "int" true)
    | exists (SLMap.mk 0 1 "lin" "sharp2" x "float" false)
    | exists (SLMap.mk 0 7 "lin" "type3" x "int" true)
    | exists (SLMap.mk 0 1 "lin" "sharp3" x "float" false)
    | exists (SLMap.mk 0 1 "lin" "cutoffFact" x "float" false)
    | exists (SLMap.mk 0 1 "lin" "res" x "float" false) ];
    (split; [cbn; tauto|]); (split; [reflexivity|]);
    (split; [reflexivity|]); exact H.
Qed.

Lemma ctrl_does_not_validate_witness :
  ~ in_range (declared_range Ptype2) (PyInt 9)
  /\ exists sl,
       In sl (sliders (snd (ctrl (setter demo_pyo Ptype2 (new no_args) (PyInt 9))
                             None None false)))
       /\ SLMap.name sl = "type2"
       /\ SLMap.init sl = PyInt 9
       /\ ~ in_range (SLMap.min sl, SLMap.max sl) (SLMap.init sl).
Proof.
  assert (H : ~ in_range (declared_range Ptype2) (PyInt 9)) by (cbn; lia).
  split; [exact H|].
  exact (ctrl_does_not_validate demo_pyo Ptype2 (new no_args) (PyInt 9)
           None None false H).
Defined.

(** *** The signals the wiring produces *)

Lemma eval_number (rho : objref -> signal) (v : pyval) (c : Q) (n : nat) :
  number_value v = Some c -> eval rho v n = c.
Proof.
  destruct v; cbn; intros H; try discriminate H; now injection H.
Qed.

(** X12. The envelope gates the whole voice: in every reachable instance, at
    a sample where the envelope's output is 0 the signal entering the filter
    is 0 and the cutoff is 0 Hz, whatever the oscillators produce and
    whatever the parameters are. *)
Theorem zero_envelope_closes_the_voice (L : pyo) (R : sources) (k : kwargs)
    (cs : list call) (n : nat) :
  src_env R n == 0 ->
  filt_input R (run L (new k) cs) n == 0
  /\ filt_freq R (run L (new k) cs) n == 0.
Proof.
  intros He. split.
  - rewrite (filt_input_wired R _ n (wired_reachable L k cs)), He. ring.
  - rewrite (filt_freq_wired R _ n (wired_reachable L k cs)), He. ring.
Qed.

Lemma zero_envelope_closes_the_voice_witness :
  filt_input (mkSources (fun _ => 60) (fun _ => 0) (fun _ => 261) (fun _ => 0)
                (fun _ _ => 0) (fun _ _ => 0) (fun _ _ _ _ _ => 1))
             (run demo_pyo (new no_args) script_calls) 7%nat == 0.
Proof.
  apply (zero_envelope_closes_the_voice demo_pyo
           (mkSources (fun _ => 60) (fun _ => 0) (fun _ => 261) (fun _ => 0)
              (fun _ _ => 0) (fun _ _ => 0) (fun _ _ _ _ _ => 1))
           no_args script_calls 7%nat).
  reflexivity.
Defined.

(** X13. With a numeric cutoff factor inside the slider's range [0,1] and a
    non-negative envelope, the cutoff lies between 0 Hz and 20000 Hz times
    the envelope's output; a larger factor never gives a lower cutoff. *)
Theorem cutoff_within_ceiling (L : pyo) (R : sources) (k : kwargs)
    (cs : list call) (n : nat) (c : Q) :
  number_value (cutoffFact (run L (new k) cs)) = Some c ->
  0 <= c -> c <= 1 -> 0 <= src_env R n ->
  (0 <= filt_freq R (run L (new k) cs) n
   /\ filt_freq R (run L (new k) cs) n <= 20000 * src_env R n)
  /\ (forall d, c <= d ->
        filt_freq R (run L (new k) cs) n
        <= filt_freq R (setCutoffFact (run L (new k) cs) (PyFloat d)) n).
Proof.
  intros Hc H0 H1 He.
  rewrite (filt_freq_wired R _ n (wired_reachable L k cs)).
  rewrite (eval_number _ _ c n Hc).
  split; [split|].
  - apply Qmult_le_0_compat; [|exact H0].
    apply Qmult_le_0_compat; [exact He | discriminate].
  - rewrite <- (Qmult_1_r (20000 * src_env R n)).
    rewrite (Qmult_comm (src_env R n) 20000).
    apply Qmult_le_compat_nonneg.
    + split; [|apply Qle_refl].
      apply Qmult_le_0_compat; [discriminate | exact He].
    + split; assumption.
  - intros d Hd.
    change (filt_freq R (setCutoffFact (run L (new k) cs) (PyFloat d)) n)
      with (src_env R n * 20000 * d).
    apply Qmult_le_compat_nonneg.
    + split; [|apply Qle_refl].
      apply Qmult_le_0_compat; [exact He | discriminate].
    + split; assumption.
Qed.

Lemma cutoff_within_ceiling_witness :
  number_value (cutoffFact (run demo_pyo (new no_args) script_calls)) = Some 0.5
  /\ filt_freq demo_sources (run demo_pyo (new no_args) script_calls) 0%nat
     <= 20000 * src_env demo_sources 0%nat.
Proof.
  assert (Hc : number_value (cutoffFact (run demo_pyo (new no_args) script_calls))
               = Some 0.5) by reflexivity.
  split; [exact Hc|].
  assert (H0 : 0 <= 0.5) by discriminate.
  assert (H1 : 0.5 <= 1) by discriminate.
  assert (He : 0 <= src_env demo_sources 0%nat) by discriminate.
  destruct (cutoff_within_ceiling demo_pyo demo_sources no_args script_calls 0%nat 0.5
              Hc H0 H1 He) as ((_ & Hub) & _).
  exact Hub.
Defined.

(** A waveform type of 2.5: the attribute is stored, the oscillator raises
    and keeps its type; a later 3 reaches it.  A constructor given 2.5
    raises and returns no instance. *)
Example refused_type :
  type1 (fst (setType1 demo_pyo (new no_args) (PyFloat 2.5))) = PyFloat 2.5
  /\ LFO.type (_osc1 (fst (setType1 demo_pyo (new no_args) (PyFloat 2.5))))
     = PyInt 0
  /\ snd (setType1 demo_pyo (new no_args) (PyFloat 2.5))
     = Some PyoArgumentTypeError
  /\ LFO.type (_osc1 (fst (setType1 demo_pyo
                             (fst (setType1 demo_pyo (new no_args) (PyFloat 2.5)))
                             (PyInt 3)))) = PyInt 3
  /\ construct demo_pyo
       (mkKwargs (Some (PyFloat 2.5)) None None None None None None None)
     = inr PyoArgumentTypeError
  /\ construct demo_pyo no_args = inl (new no_args).
Proof. repeat split; reflexivity. Qed.
